(** * Blog-AI: the request orchestration and the token identity layer

    A shallow embedding of [backend/app/auth.py], [backend/app/db.py],
    [backend/app/routes/auth.py], of the two stateful handlers and the
    [lifespan] of [backend/app/main.py], and of [init_settings] and
    [get_settings] of the two [config.py], followed by the properties the
    specification states about them and by further properties of the code.

    Conventions.
    - A Python coroutine that reads or writes the process state becomes a
      function [World -> res A * World]: the value it returns or the
      exception it raises, and the state it leaves behind.
    - The wall clock is a field of the state, counted in microseconds; a
      call to a collaborator or to the database driver advances it by the
      time that call takes.
    - Python dictionaries whose key set matters (user documents, the user
      dictionaries handed back by the auth service) are [gmap string pyval];
      values the code only forwards are kept as text.
    - A collection holds its documents as the driver encodes them: a date
      is kept to the millisecond.
    - What the interpreter decides on binary floats, and the time between
      two readings of the clock, are parameters of the environment. *)

From Stdlib Require Import ZArith Ascii String List Lia.
From stdpp Require Import base strings pretty gmap list.

Local Open Scope Z_scope.
Local Open Scope string_scope.

(** ** Exceptions and results *)

(** The exception classes the sources raise or catch by name, and one
    constructor for every other subclass of [Exception]. *)
Inductive exn : Type :=
  | HTTPException (status_code : Z) (detail : string)
  | ValueError (msg : string)
  | TypeError (msg : string)
  | JWTError (msg : string)
  | DuplicateKeyError (msg : string)
  | PyException (cls msg : string).

Inductive res (A : Type) : Type :=
  | Ok (a : A)
  | Raise (e : exn).
Arguments Ok {A} a.
Arguments Raise {A} e.

(** [str(e)] as the f-strings of the handlers use it. *)
Definition str_exn (e : exn) : string :=
  match e with
  | HTTPException _ d => d
  | ValueError m | TypeError m | JWTError m | DuplicateKeyError m => m
  | PyException _ m => m
  end.

Definition is_HTTPException (e : exn) : bool :=
  match e with HTTPException _ _ => true | _ => false end.

Definition is_ValueError (e : exn) : bool :=
  match e with ValueError _ => true | _ => false end.

Definition is_JWTError (e : exn) : bool :=
  match e with JWTError _ => true | _ => false end.

(** ** Values, documents and the process state *)

Inductive pyval : Type :=
  | VNone
  | VStr (s : string)
  | VInt (z : Z)
  | VDatetime (micros : Z)
  | VObjectId (hex : string).

Definition pyval_eqb (a b : pyval) : bool :=
  match a, b with
  | VNone, VNone => true
  | VStr x, VStr y => String.eqb x y
  | VInt x, VInt y => Z.eqb x y
  | VDatetime x, VDatetime y => Z.eqb x y
  | VObjectId x, VObjectId y => String.eqb x y
  | _, _ => false
  end.

Inductive level : Type := WARNING | ERROR.

Record HistoryDoc : Type := mkHistoryDoc {
  h_user_id : pyval;
  h_action : string;
  h_data : list (string * string);
  h_timestamp : Z
}.

Record ImageData : Type := mkImageData { image_fields : string }.

Record BlogDict : Type := mkBlogDict {
  title : string;
  body : string;
  featured_image : option ImageData;
  additional_images : list ImageData
}.

Record KeywordData : Type := mkKeywordData {
  primary_keywords : list string;
  secondary_keywords : list string;
  keyword_density : string
}.

Record AnalysisData : Type := mkAnalysisData {
  summary : string;
  intent : string;
  topics : list string;
  content_length : Z
}.

Record ContentAnalysis : Type := mkContentAnalysis {
  ca_summary : string;
  ca_intent : string;
  ca_topics : list string;
  ca_content_length : Z
}.

Record BlogDoc : Type := mkBlogDoc {
  b_id : string;
  b_user_id : string;
  b_url : string;
  b_title : string;
  b_generated_at : Z;
  b_blog : BlogDict;
  b_keywords : KeywordData;
  b_analysis : ContentAnalysis;
  b_word_count : Z;
  b_processing_time : Z
}.

Record World : Type := mkWorld {
  users : list (gmap string pyval);
  history : list HistoryDoc;
  blogs : list BlogDoc;
  mongo_client : bool;
  next_oid : N;
  clock : Z;
  logs : list (level * string)
}.

(** The three collections of [db.py] and what the code does to them. *)
Inductive collection : Type := Users | History | Blogs.
Inductive db_op : Type := FindOne | InsertOne | Find.

(** ** The state-and-exception monad *)

Definition M (A : Type) : Type := World -> res A * World.

Definition ret {A} (a : A) : M A := fun w => (Ok a, w).

Definition raise {A} (e : exn) : M A := fun w => (Raise e, w).

Definition bind {A B} (c : M A) (k : A -> M B) : M B :=
  fun w =>
    match c w with
    | (Ok a, w') => k a w'
    | (Raise e, w') => (Raise e, w')
    end.

Notation "x <~ c ;; k" := (bind c (fun x => k))
  (at level 100, c at next level, right associativity).
Notation "c ;;; k" := (bind c (fun _ => k))
  (at level 100, right associativity).

(** [try: c except E as e: h e] where [catches] says which exceptions the
    clause names; the others pass through. *)
Definition try_except {A} (c : M A) (catches : exn -> bool) (h : exn -> M A) : M A :=
  fun w =>
    match c w with
    | (Ok a, w') => (Ok a, w')
    | (Raise e, w') => if catches e then h e w' else (Raise e, w')
    end.

Definition lift_res {A} (r : res A) : M A := fun w => (r, w).

(** The state after [d] microseconds have passed, and after a line has
    been written to the log. *)
Definition advance (d : Z) (w : World) : World :=
  mkWorld (users w) (history w) (blogs w) (mongo_client w)
          (next_oid w) (clock w + d) (logs w).

Definition log_line (l : level) (msg : string) (w : World) : World :=
  mkWorld (users w) (history w) (blogs w) (mongo_client w)
          (next_oid w) (clock w) (logs w ++ [(l, msg)])%list.

Definition logger (l : level) (msg : string) : M unit :=
  fun w => (Ok tt, log_line l msg w).

Definition tick (d : Z) : M unit :=
  fun w => (Ok tt, advance d w).

(** [time.time()] and [datetime.utcnow()]: both read the clock. *)
Definition time_time : M Z := fun w => (Ok (clock w), w).
Definition utcnow : M Z := fun w => (Ok (clock w), w).

(** ** Configuration and the environment of a request *)

(** The fields of [config.Settings] that the modelled functions read. *)
Record Settings : Type := mkSettings {
  mongodb_uri : string;
  jwt_secret_key : string;
  jwt_algorithm : string;
  jwt_expiry_minutes : Z;
  unsplash_access_key : string
}.

(** The Motor driver seen from the application: a call may raise (server
    unreachable, write refused, duplicate key reported by a unique index)
    and takes some time. *)
Record Driver : Type := mkDriver {
  fault : collection -> db_op -> option exn;
  latency : collection -> db_op -> Z
}.

(** A call to a stage collaborator: what it returns or raises, and how long
    it runs. *)
Record Call (A : Type) : Type := mkCall {
  outcome : res A;
  took : Z
}.
Arguments mkCall {A} outcome took.
Arguments outcome {A} c.
Arguments took {A} c.

Record ContentData : Type := mkContentData {
  cd_text : string;
  cd_title : option string
}.

Record SeoAnalysis : Type := mkSeoAnalysis {
  sa_word_count : Z;
  sa_seo_score : Z
}.

Record ProcessedResult : Type := mkProcessedResult {
  pr_blog : BlogDict;
  pr_seo_analysis : SeoAnalysis
}.

Record BlogGenerationRequest : Type := mkRequest {
  rq_url : string;
  rq_tone : string;
  rq_word_count : Z
}.

(** The singletons of [main.py] ([url_validator], [content_extractor], ...):
    external, black-box stages. *)
Record Collaborators : Type := mkCollaborators {
  validate : string -> Call (bool * string);
  extract : string -> Call ContentData;
  clean : string -> Call string;
  extract_and_categorize : string -> Call KeywordData;
  analyze : string -> string -> list string -> Call AnalysisData;
  build_prompt : string -> string -> AnalysisData -> KeywordData -> string -> Z -> Call string;
  generate : string -> Call string;
  get_featured_image : list string -> Call (option string);
  fetch_images : list string -> Z -> Call (list string);
  process : string -> list string -> Call ProcessedResult
}.

(** [app/models.py] is not among the sources.  The validating constructor
    of [ImageData], called on a dictionary the image fetcher returned, is a
    parameter; so is the validation that [BlogContent] runs on the fields it
    receives from the post-processor. *)
Record Models : Type := mkModels {
  ImageData_new : string -> res ImageData;
  BlogContent_check : string -> string -> option exn
}.

(** Modelled from the spec: the declaration of [BlogContent] in
    [app/models.py] is missing.  The artifact of the specification has an
    optional [featured_image] and a list [additional_images]; the handler
    fills them with [None] or an [ImageData] and with a list of [ImageData],
    which such fields accept, so the constructor can only object to the
    other fields and returns the content it was given. *)
Definition BlogContent_new (m : Models) (d : BlogDict) : res BlogDict :=
  match BlogContent_check m (title d) (body d) with
  | Some e => Raise e
  | None => Ok d
  end.

(** ** Text helpers *)

(** Python truthiness of a string. *)
Definition truthy (s : string) : bool :=
  match s with EmptyString => false | _ => true end.

Definition lower_ascii (c : ascii) : ascii :=
  let n := N_of_ascii c in
  if ((65 <=? n) && (n <=? 90))%N then ascii_of_N (n + 32) else c.

Fixpoint lower (s : string) : string :=
  match s with
  | EmptyString => EmptyString
  | String c r => String (lower_ascii c) (lower r)
  end.

(** [s.partition(" ")], without the separator that Python also returns. *)
Fixpoint partition_space (s : string) : string * string :=
  match s with
  | EmptyString => (EmptyString, EmptyString)
  | String c r =>
      if Ascii.eqb c " "%char then (EmptyString, r)
      else let '(a, b) := partition_space r in (String c a, b)
  end.

Definition is_hex_digit (c : ascii) : bool :=
  let n := N_of_ascii c in
  (((48 <=? n) && (n <=? 57)) || ((97 <=? n) && (n <=? 102))
   || ((65 <=? n) && (n <=? 70)))%N.

Fixpoint all_hex (s : string) : bool :=
  match s with
  | EmptyString => true
  | String c r => is_hex_digit c && all_hex r
  end.

Definition hex_digit (n : N) : ascii :=
  if (n <? 10)%N then ascii_of_N (48 + n) else ascii_of_N (87 + n).

Fixpoint hex_fixed (width : nat) (n : N) (acc : string) : string :=
  match width with
  | O => acc
  | S k => hex_fixed k (n / 16)%N (String (hex_digit (n mod 16)%N) acc)
  end.

(** The identifier the server hands out for the [n]-th inserted document,
    in the 24-hex-digit text form of a [bson.ObjectId]. *)
Definition mk_oid (n : N) : string := hex_fixed 24 n EmptyString.

(** ASCII whitespace, as [bytes.fromhex] skips it: space, tab, line feed,
    vertical tab, form feed, carriage return. *)
Definition is_space (c : ascii) : bool :=
  let n := N_of_ascii c in
  ((n =? 32) || ((9 <=? n) && (n <=? 13)))%N.

(** [bytes.fromhex(s)], the bytes written in lower-case hexadecimal: pairs
    of hexadecimal digits, with whitespace allowed before each pair and at
    the end; [None] where the function raises [ValueError]. *)
Fixpoint fromhex (s : string) : option string :=
  match s with
  | EmptyString => Some EmptyString
  | String c r =>
      if is_space c then fromhex r
      else
        match r with
        | EmptyString => None
        | String d r' =>
            if is_hex_digit c && is_hex_digit d
            then
              match fromhex r' with
              | Some h => Some (String (lower_ascii c) (String (lower_ascii d) h))
              | None => None
              end
            else None
        end
  end.

(** [bson.ObjectId(s)] for a [str] argument, as the text of the id: a
    string of 24 characters that [bytes.fromhex] reads is accepted, with
    whatever number of bytes it spells; anything else raises [InvalidId]. *)
Definition ObjectId_new (s : string) : res string :=
  if (String.length s =? 24)%nat then
    match fromhex s with
    | Some h => Ok h
    | None => Raise (PyException "InvalidId" (s ++ " is not a valid ObjectId"))
    end
  else Raise (PyException "InvalidId" (s ++ " is not a valid ObjectId")).

(** ** Tokens: a symbolic model of [jose.jwt] *)

(** The claims the application writes and reads.  [c_exp] is the integer
    number of seconds since the epoch that the library stores. *)
Record Claims : Type := mkClaims {
  c_sub : option pyval;
  c_email : option pyval;
  c_exp : option Z
}.

(** The signature of a compact token is the keyed MAC of its header and
    payload; it is kept as the triple it was computed from, so that it
    verifies exactly when key, algorithm and payload are the ones signed. *)
Record Signature : Type := mkSignature {
  signed_key : string;
  signed_alg : string;
  signed_claims : Claims
}.

Inductive token : Type :=
  | Malformed (text : string)
  | Compact (alg : string) (claims : Claims) (sig : Signature).

(** What [fastapi.security.HTTPBearer] (with its default [auto_error]) raises
    when the header carries no credentials, and when the scheme is not
    [bearer].  Releases of the framework differ in the status they attach. *)
Record BearerScheme : Type := mkBearerScheme {
  on_missing : exn;
  on_bad_scheme : exn
}.

(** What the interpreter decides and the state does not show.
    [tie_rounds_up start now] is the direction [round(now - start, 2)]
    takes when the elapsed time is an odd number of half hundredths: the
    binary floats of the two readings lie on one side of the midpoint or
    the other.  [utcnow_gap] is the time that passes between two successive
    calls of [datetime.utcnow()] with no call awaited between them. *)
Record Interpreter : Type := mkInterpreter {
  tie_rounds_up : Z -> Z -> bool;
  utcnow_gap : N
}.

(** Everything a request depends on besides the process state.
    [token_of_text] is the reading of a credential text as the token it
    spells (the base64url and JSON layer of the library). *)
Record Env : Type := mkEnv {
  settings : Settings;
  driver : Driver;
  stages : Collaborators;
  models : Models;
  scheme : BearerScheme;
  token_of_text : string -> token;
  interpreter : Interpreter
}.

Definition option_eqb {A} (eqb : A -> A -> bool) (a b : option A) : bool :=
  match a, b with
  | Some x, Some y => eqb x y
  | None, None => true
  | _, _ => false
  end.

Definition Claims_eqb (a b : Claims) : bool :=
  option_eqb pyval_eqb (c_sub a) (c_sub b)
  && option_eqb pyval_eqb (c_email a) (c_email b)
  && option_eqb Z.eqb (c_exp a) (c_exp b).

Definition json_serializable (v : option pyval) : bool :=
  match v with
  | Some (VDatetime _) | Some (VObjectId _) => false
  | _ => true
  end.

(** [jwt.encode(claims, key, algorithm=alg)]. *)
Definition jwt_encode (claims : Claims) (key alg : string) : res token :=
  if json_serializable (c_sub claims) && json_serializable (c_email claims)
  then Ok (Compact alg claims (mkSignature key alg claims))
  else Raise (JWTError "Object is not JSON serializable").

(** The library's check of a [sub] claim: absent, or a string. *)
Definition sub_is_text (v : option pyval) : bool :=
  match v with
  | None | Some (VStr _) => true
  | _ => false
  end.

(** The library's check of an [exp] claim at the second [now]. *)
Definition expired (exp : option Z) (now : Z) : bool :=
  match exp with
  | Some e => Z.ltb e now
  | None => false
  end.

(** [jwt.decode(token, key, algorithms=algs)] at the second [now]: the
    structure, the algorithm and the signature are checked, then the claims:
    [sub] when present must be a string, [exp] when present must not lie in
    the past (the library requires neither). *)
Definition jwt_decode (t : token) (key : string) (algs : list string) (now : Z)
  : res Claims :=
  match t with
  | Malformed _ => Raise (JWTError "Not enough segments")
  | Compact alg claims sig =>
      if negb (existsb (String.eqb alg) algs)
      then Raise (JWTError "The specified alg value is not allowed")
      else if negb (String.eqb (signed_key sig) key
                    && String.eqb (signed_alg sig) alg
                    && Claims_eqb (signed_claims sig) claims)
      then Raise (JWTError "Signature verification failed.")
      else if expired (c_exp claims) now
      then Raise (JWTError "Signature has expired.")
      else if negb (sub_is_text (c_sub claims))
      then Raise (JWTError "Subject must be a string.")
      else Ok claims
  end.

Record TokenData : Type := mkTokenData {
  td_user_id : string;
  td_email : string;
  td_exp : Z
}.

(** The pydantic constructor [TokenData(user_id=.., email=.., exp=..)]:
    both text fields must be strings. *)
Definition TokenData_new (user_id email : pyval) (exp : Z) : res TokenData :=
  match user_id, email with
  | VStr u, VStr m => Ok (mkTokenData u m exp)
  | _, _ => Raise (PyException "ValidationError" "Input should be a valid string")
  end.

(** [datetime.fromtimestamp(x)] for [x = payload.get("exp")], for the
    timestamps the platform can turn into a date (through the year 9999);
    beyond them the function raises [ValueError] or [OverflowError], which
    is outside the model. *)
Definition fromtimestamp (x : option Z) : res Z :=
  match x with
  | Some s => Ok s
  | None => Raise (TypeError "'NoneType' object cannot be interpreted as an integer")
  end.

Record HTTPAuthorizationCredentials : Type := mkCredentials {
  cred_scheme : string;
  credentials : token
}.

Record UserCreate : Type := mkUserCreate {
  uc_email : string;
  uc_password : string;
  uc_name : option string
}.

Record UserLogin : Type := mkUserLogin {
  ul_email : string;
  ul_password : string
}.

Record UserResponse : Type := mkUserResponse {
  ur_id : string;
  ur_email : string;
  ur_name : option string;
  ur_created_at : Z
}.

Record Token : Type := mkToken {
  access_token : token;
  token_type : string;
  expires_in : Z
}.

(** [str(v)]. *)
Definition py_str (v : pyval) : string :=
  match v with
  | VNone => "None"
  | VStr s => s
  | VInt z => pretty z
  | VDatetime t => pretty t
  | VObjectId h => h
  end.

Definition of_option_str (o : option string) : pyval :=
  match o with Some s => VStr s | None => VNone end.

(** [d[k]] and [d.get(k)]. *)
Definition subscript (d : gmap string pyval) (k : string) : res pyval :=
  match d !! k with
  | Some v => Ok v
  | None => Raise (PyException "KeyError" k)
  end.

Definition dict_get (d : gmap string pyval) (k : string) : pyval :=
  match d !! k with Some v => v | None => VNone end.

(** Truthiness of [None] or a dictionary. *)
Definition truthy_doc (o : option (gmap string pyval)) : bool :=
  match o with
  | None => false
  | Some d => negb (bool_decide (d = ∅))
  end.

(** The pydantic constructor of [UserResponse]. *)
Definition UserResponse_new (id email name created_at : pyval) : res UserResponse :=
  match id, email, created_at with
  | VStr i, VStr m, VDatetime t =>
      match name with
      | VNone => Ok (mkUserResponse i m None t)
      | VStr n => Ok (mkUserResponse i m (Some n) t)
      | _ => Raise (PyException "ValidationError" "name")
      end
  | _, _, _ => Raise (PyException "ValidationError" "UserResponse")
  end.

(** ** State updates *)

Definition set_users (f : list (gmap string pyval) -> list (gmap string pyval))
  (w : World) : World :=
  mkWorld (f (users w)) (history w) (blogs w) (mongo_client w)
          (next_oid w) (clock w) (logs w).

Definition set_history (f : list HistoryDoc -> list HistoryDoc) (w : World) : World :=
  mkWorld (users w) (f (history w)) (blogs w) (mongo_client w)
          (next_oid w) (clock w) (logs w).

Definition set_blogs (f : list BlogDoc -> list BlogDoc) (w : World) : World :=
  mkWorld (users w) (history w) (f (blogs w)) (mongo_client w)
          (next_oid w) (clock w) (logs w).

Definition set_mongo_client (b : bool) (w : World) : World :=
  mkWorld (users w) (history w) (blogs w) b (next_oid w) (clock w) (logs w).

Definition bump_oid (w : World) : World :=
  mkWorld (users w) (history w) (blogs w) (mongo_client w)
          (next_oid w + 1)%N (clock w) (logs w).

(** What the three collections hold: the part of the state a request can
    persist into. *)
Definition store (w : World) : list (gmap string pyval) * list HistoryDoc * list BlogDoc :=
  (users w, history w, blogs w).

(** A BSON date counts milliseconds: the driver stores a [datetime] with
    its microseconds cut to the millisecond below, and a value of another
    type as it is. *)
Definition bson_millis (micros : Z) : Z := micros / 1000 * 1000.

Definition to_bson (v : pyval) : pyval :=
  match v with
  | VDatetime t => VDatetime (bson_millis t)
  | _ => v
  end.

Definition bson_history (d : HistoryDoc) : HistoryDoc :=
  mkHistoryDoc (h_user_id d) (h_action d) (h_data d) (bson_millis (h_timestamp d)).

Definition bson_blog (d : BlogDoc) : BlogDoc :=
  mkBlogDoc (b_id d) (b_user_id d) (b_url d) (b_title d)
            (bson_millis (b_generated_at d)) (b_blog d) (b_keywords d)
            (b_analysis d) (b_word_count d) (b_processing_time d).

Section Program.

Variable env : Env.

(** ** [db.py] *)

(** [AsyncIOMotorClient(uri, ...)] connects lazily and is taken to accept
    the URI that is configured; a URI it cannot parse makes it raise
    [InvalidURI], which is outside the model. *)
Definition get_mongo_client : M unit :=
  fun w =>
    if mongo_client w then (Ok tt, w)
    else if negb (truthy (mongodb_uri (settings env)))
    then (Raise (ValueError "MONGODB_URI not configured. Set it in .env or environment variables. Format: mongodb+srv://<user>:<pass>@cluster0.mongodb.net"), w)
    else (Ok tt, set_mongo_client true w).

Definition get_mongo_db : M unit := get_mongo_client.

Definition get_users_collection : M collection := get_mongo_db ;;; ret Users.
Definition get_history_collection : M collection := get_mongo_db ;;; ret History.
Definition get_blogs_collection : M collection := get_mongo_db ;;; ret Blogs.

(** One awaited driver call on collection [c]: time passes, and the driver
    either raises or lets the operation run. *)
Definition driver_call (c : collection) (op : db_op) : M unit :=
  tick (latency (driver env) c op) ;;;
  match fault (driver env) c op with
  | Some e => raise e
  | None => ret tt
  end.

Definition has_email (e : string) (d : gmap string pyval) : bool :=
  match d !! "email" with
  | Some v => pyval_eqb v (VStr e)
  | None => false
  end.

(** [users.find_one({"email": e})]. *)
Definition users_find_one (e : string) : M (option (gmap string pyval)) :=
  driver_call Users FindOne ;;;
  fun w => (Ok (List.find (has_email e) (users w)), w).

(** [users.insert_one(doc)]: the result's [inserted_id].  The collection
    receives the document in its BSON form. *)
Definition users_insert_one (doc : gmap string pyval) : M pyval :=
  driver_call Users InsertOne ;;;
  fun w =>
    let oid := VObjectId (mk_oid (next_oid w)) in
    (Ok oid,
     bump_oid (set_users (fun l => (l ++ [<["_id" := oid]> (to_bson <$> doc)])%list) w)).

(** [history.insert_one(doc)]. *)
Definition history_insert_one (doc : HistoryDoc) : M unit :=
  driver_call History InsertOne ;;;
  fun w => (Ok tt, bump_oid (set_history (fun l => (l ++ [bson_history doc])%list) w)).

(** [blogs.insert_one(doc)]: the document is given without its [_id]. *)
Definition blogs_insert_one (doc : string -> BlogDoc) : M string :=
  driver_call Blogs InsertOne ;;;
  fun w =>
    let oid := mk_oid (next_oid w) in
    (Ok oid, bump_oid (set_blogs (fun l => (l ++ [bson_blog (doc oid)])%list) w)).

(** [blogs.find_one({"_id": oid, "user_id": uid})]. *)
Definition blogs_find_one (oid uid : string) : M (option BlogDoc) :=
  driver_call Blogs FindOne ;;;
  fun w =>
    (Ok (List.find (fun d => String.eqb (b_id d) oid && String.eqb (b_user_id d) uid)
                   (blogs w)), w).

(** ** [auth.py] *)

Definition verify_password (plain_password : string) (stored_value : pyval) : bool :=
  pyval_eqb (VStr plain_password) stored_value.

Definition hash_password (password : string) : M string :=
  logger WARNING "Storing plaintext passwords is insecure; consider reintroducing hashing when possible." ;;;
  ret password.

Definition create_access_token (user_id email : pyval) (expires_delta : option Z)
  : M token :=
  let expires_delta :=
    match expires_delta with
    | Some d => d
    | None => jwt_expiry_minutes (settings env) * 60000000
    end in
  now <~ utcnow ;;
  let expire := now + expires_delta in
  let to_encode := mkClaims (Some user_id) (Some email) (Some (expire / 1000000)) in
  lift_res (jwt_encode to_encode (jwt_secret_key (settings env))
                       (jwt_algorithm (settings env))).

Definition is_None (v : pyval) : bool :=
  match v with VNone => true | _ => false end.

Definition payload_get (c : option pyval) : pyval :=
  match c with Some v => v | None => VNone end.

Definition verify_token (t : token) : M (option TokenData) :=
  try_except
    (now <~ utcnow ;;
     payload <~ lift_res (jwt_decode t (jwt_secret_key (settings env))
                                     [jwt_algorithm (settings env)] (now / 1000000)) ;;
     let user_id := payload_get (c_sub payload) in
     let email := payload_get (c_email payload) in
     exp <~ lift_res (fromtimestamp (c_exp payload)) ;;
     if is_None user_id || is_None email then ret None
     else td <~ lift_res (TokenData_new user_id email exp) ;; ret (Some td))
    is_JWTError
    (fun e => logger WARNING ("JWT verification failed: " ++ str_exn e) ;;; ret None).

Definition credentials_exception : exn :=
  HTTPException 401 "Could not validate credentials".

Definition get_current_user (creds : HTTPAuthorizationCredentials) : M TokenData :=
  let t := credentials creds in
  token_data <~ verify_token t ;;
  match token_data with
  | None => raise credentials_exception
  | Some td => ret td
  end.

Definition create_user (user_data : UserCreate) : M (gmap string pyval) :=
  get_users_collection ;;;
  existing <~ users_find_one (uc_email user_data) ;;
  if truthy_doc existing
  then raise (HTTPException 400 "Email already registered")
  else
    pw <~ hash_password (uc_password user_data) ;;
    created <~ utcnow ;;
    tick (Z.of_N (utcnow_gap (interpreter env))) ;;;
    updated <~ utcnow ;;
    let user_doc : gmap string pyval :=
      <["email" := VStr (uc_email user_data)]>
      (<["password_hash" := VStr pw]>
      (<["name" := of_option_str (uc_name user_data)]>
      (<["created_at" := VDatetime created]>
      (<["updated_at" := VDatetime updated]> ∅)))) in
    inserted_id <~ users_insert_one user_doc ;;
    let user_doc := <["_id" := inserted_id]> user_doc in
    id <~ lift_res (subscript user_doc "_id") ;;
    email <~ lift_res (subscript user_doc "email") ;;
    name <~ lift_res (subscript user_doc "name") ;;
    created_at <~ lift_res (subscript user_doc "created_at") ;;
    ret (<["id" := VStr (py_str id)]>
         (<["email" := email]>
         (<["name" := name]>
         (<["created_at" := created_at]> ∅)))).

Definition authenticate_user (email password : string)
  : M (option (gmap string pyval)) :=
  get_users_collection ;;;
  user <~ users_find_one email ;;
  match user with
  | None => ret None
  | Some user =>
      stored <~ lift_res (subscript user "password_hash") ;;
      if negb (verify_password password stored) then ret None
      else
        id <~ lift_res (subscript user "_id") ;;
        email <~ lift_res (subscript user "email") ;;
        created_at <~ lift_res (subscript user "created_at") ;;
        ret (Some (<["id" := VStr (py_str id)]>
                   (<["email" := email]>
                   (<["name" := dict_get user "name"]>
                   (<["created_at" := created_at]> ∅)))))
  end.

Definition log_user_action (user_id : pyval) (action : string)
  (data : option (list (string * string))) : M unit :=
  get_history_collection ;;;
  now <~ utcnow ;;
  history_insert_one
    (mkHistoryDoc user_id action (match data with Some d => d | None => [] end) now).

(** ** The bearer scheme and the identity dependency *)

(** [fastapi.security.utils.get_authorization_scheme_param]. *)
Definition get_authorization_scheme_param (authorization : option string)
  : string * string :=
  match authorization with
  | None => ("", "")
  | Some v => if truthy v then partition_space v else ("", "")
  end.

Definition truthy_header (authorization : option string) : bool :=
  match authorization with Some v => truthy v | None => false end.

(** [HTTPBearer.__call__] on the value of the [Authorization] header. *)
Definition HTTPBearer_call (authorization : option string)
  : res HTTPAuthorizationCredentials :=
  let '(sch, cred) := get_authorization_scheme_param authorization in
  if negb (truthy_header authorization && truthy sch && truthy cred)
  then Raise (on_missing (scheme env))
  else if negb (String.eqb (lower sch) "bearer")
  then Raise (on_bad_scheme (scheme env))
  else Ok (mkCredentials sch (token_of_text env cred)).

(** A route declared with [current_user = Depends(get_current_user)], where
    [get_current_user] itself depends on [security]: the handler runs only
    with the identity that the two dependencies produced. *)
Definition protected {A} (authorization : option string)
  (handler : TokenData -> M A) : M A :=
  creds <~ lift_res (HTTPBearer_call authorization) ;;
  current_user <~ get_current_user creds ;;
  handler current_user.

(** ** [routes/auth.py] *)

Definition register (user_data : UserCreate) : M UserResponse :=
  if negb (truthy (mongodb_uri (settings env)))
  then raise (HTTPException 503 "User registration not available (database not configured)")
  else
    user <~ create_user user_data ;;
    id <~ lift_res (subscript user "id") ;;
    log_user_action id "register" None ;;;
    id <~ lift_res (subscript user "id") ;;
    email <~ lift_res (subscript user "email") ;;
    created_at <~ lift_res (subscript user "created_at") ;;
    lift_res (UserResponse_new id email (dict_get user "name") created_at).

Definition login (creds : UserLogin) : M Token :=
  if negb (truthy (mongodb_uri (settings env)))
  then raise (HTTPException 503 "User authentication not available (database not configured)")
  else
    user <~ authenticate_user (ul_email creds) (ul_password creds) ;;
    if negb (truthy_doc user)
    then raise (HTTPException 401 "Invalid email or password")
    else
      let user := default ∅ user in
      id <~ lift_res (subscript user "id") ;;
      email <~ lift_res (subscript user "email") ;;
      tok <~ create_access_token id email
               (Some (jwt_expiry_minutes (settings env) * 60000000)) ;;
      id <~ lift_res (subscript user "id") ;;
      log_user_action id "login" None ;;;
      ret (mkToken tok "bearer" (jwt_expiry_minutes (settings env) * 60)).

Definition logout (current_user : TokenData) : M string :=
  log_user_action (VStr (td_user_id current_user)) "logout" None ;;;
  ret "Logged out successfully".

Definition get_me (current_user : TokenData) : M TokenData := ret current_user.

(** ** [main.py] *)

(** [processing_time] is a number of hundredths of a second;
    [generated_at] is [None] where the handler leaves it to the model. *)
Record BlogGenerationResponse : Type := mkResponse {
  success : bool;
  blog : BlogDict;
  keywords : KeywordData;
  analysis : ContentAnalysis;
  word_count : Z;
  processing_time : Z;
  generated_at : option Z
}.

Record ErrorResponse : Type := mkErrorResponse {
  er_success : bool;
  er_error : string;
  er_details : string
}.

(** [round(t, 2)] for a duration of [micros] microseconds that the
    interpreter holds as a binary float: the nearest number of hundredths
    of a second, and at an exact tie of the microseconds the one the float
    is nearer to, which [tie_up] tells. *)
Definition round2 (tie_up : bool) (micros : Z) : Z :=
  let q := micros / 10000 in
  let r := micros mod 10000 in
  if Z.ltb r 5000 then q
  else if Z.ltb 5000 r then q + 1
  else if tie_up then q + 1 else q.

(** A synchronous call to a stage collaborator. *)
Definition call {A} (c : Call A) : M A :=
  tick (took c) ;;; lift_res (outcome c).

Fixpoint map_res {A B} (f : A -> res B) (l : list A) : res (list B) :=
  match l with
  | [] => Ok []
  | x :: r =>
      match f x with
      | Raise e => Raise e
      | Ok y =>
          match map_res f r with
          | Raise e => Raise e
          | Ok ys => Ok (y :: ys)
          end
      end
  end.

Definition any_exception (e : exn) : bool := true.

(** Step 8 of the pipeline.  The two variables start as [None] and [[]];
    when the [except] clause runs, each keeps the value it had been given
    before the exception. *)
Definition fetch_images_step (keyword_data : KeywordData)
  : M (option ImageData * list ImageData) :=
  if truthy (unsplash_access_key (settings env)) then
    try_except
      (featured_image_data <~
         call (get_featured_image (stages env) (primary_keywords keyword_data)) ;;
       featured_image <~
         match featured_image_data with
         | Some d => i <~ lift_res (ImageData_new (models env) d) ;; ret (Some i)
         | None => ret None
         end ;;
       try_except
         (additional_images_data <~
            call (fetch_images (stages env) (primary_keywords keyword_data) 3) ;;
          additional_images <~
            lift_res (map_res (ImageData_new (models env)) additional_images_data) ;;
          ret (featured_image, additional_images))
         any_exception
         (fun e =>
            logger WARNING ("Image fetching failed (non-critical): " ++ str_exn e) ;;;
            ret (featured_image, [])))
      any_exception
      (fun e =>
         logger WARNING ("Image fetching failed (non-critical): " ++ str_exn e) ;;;
         ret (None, []))
  else
    logger WARNING "Unsplash API key not configured - skipping image fetch" ;;;
    ret (None, []).

(** The [try] block of [generate_blog]. *)
Definition generate_blog_body (request : BlogGenerationRequest)
  (current_user : TokenData) (start_time : Z) : M BlogGenerationResponse :=
  let url := rq_url request in
    (validation <~ call (validate (stages env) url) ;;
     let '(is_valid, error_msg) := validation in
     if negb is_valid
     then raise (HTTPException 400 ("URL validation failed: " ++ error_msg))
     else
     content_data <~
       try_except (call (extract (stages env) url)) is_ValueError
         (fun e => raise (HTTPException 400 ("Content extraction failed: " ++ str_exn e))) ;;
     cleaned_text <~ call (clean (stages env) (cd_text content_data)) ;;
     if negb (truthy cleaned_text)
     then raise (HTTPException 400 "No usable content found after cleaning")
     else
     keyword_data <~ call (extract_and_categorize (stages env) cleaned_text) ;;
     analysis_data <~
       call (analyze (stages env) cleaned_text (default "" (cd_title content_data))
                     (primary_keywords keyword_data)) ;;
     prompt <~
       call (build_prompt (stages env) url (default "" (cd_title content_data))
                          analysis_data keyword_data (rq_tone request)
                          (rq_word_count request)) ;;
     blog_data <~
       try_except (call (generate (stages env) prompt)) any_exception
         (fun e => raise (HTTPException 500 ("Blog generation failed: " ++ str_exn e))) ;;
     images <~ fetch_images_step keyword_data ;;
     let '(featured, additional) := images in
     let all_keywords :=
       (primary_keywords keyword_data ++ secondary_keywords keyword_data)%list in
     processed_result <~ call (process (stages env) blog_data all_keywords) ;;
     let blog_dict :=
       mkBlogDict (title (pr_blog processed_result)) (body (pr_blog processed_result))
                  featured additional in
     now <~ time_time ;;
     let processing_time := now - start_time in
     blog_content <~ lift_res (BlogContent_new (models env) blog_dict) ;;
     let word_count_value := sa_word_count (pr_seo_analysis processed_result) in
     let processing_time_value :=
       round2 (tie_rounds_up (interpreter env) start_time now) processing_time in
     let response :=
       mkResponse true blog_content
         (mkKeywordData (primary_keywords keyword_data)
                        (secondary_keywords keyword_data)
                        (keyword_density keyword_data))
         (mkContentAnalysis (summary analysis_data) (intent analysis_data)
                            (topics analysis_data) (content_length analysis_data))
         word_count_value processing_time_value None in
     generated <~ utcnow ;;
     let blog_doc := fun oid =>
       mkBlogDoc oid (td_user_id current_user) url (title blog_content) generated
                 blog_content (keywords response) (analysis response)
                 word_count_value processing_time_value in
     get_blogs_collection ;;;
     blog_id <~ blogs_insert_one blog_doc ;;
     log_user_action (VStr (td_user_id current_user)) "generate_blog"
       (Some [("url", url); ("title", title blog_content); ("blog_id", blog_id)]) ;;;
     ret response).

(** Its two [except] clauses. *)
Definition generate_blog_except (e : exn) : M BlogGenerationResponse :=
  if is_HTTPException e then raise e
  else
    logger ERROR ("Unexpected error: " ++ str_exn e) ;;;
    raise (HTTPException 500 ("Internal server error: " ++ str_exn e)).

Definition generate_blog (request : BlogGenerationRequest) (current_user : TokenData)
  : M BlogGenerationResponse :=
  start_time <~ time_time ;;
  try_except (generate_blog_body request current_user start_time)
    any_exception generate_blog_except.

Definition get_blog (blog_id : string) (current_user : TokenData)
  : M BlogGenerationResponse :=
  oid <~ try_except (lift_res (ObjectId_new blog_id)) any_exception
           (fun _ => raise (HTTPException 400 "Invalid blog ID")) ;;
  get_blogs_collection ;;;
  doc <~ blogs_find_one oid (td_user_id current_user) ;;
  match doc with
  | None => raise (HTTPException 404 "Blog not found")
  | Some doc =>
      blog_content <~ lift_res (BlogContent_new (models env) (b_blog doc)) ;;
      ret (mkResponse true blog_content (b_keywords doc) (b_analysis doc)
             (b_word_count doc) (b_processing_time doc) (Some (b_generated_at doc)))
  end.

(** The two exception handlers installed on the application: what the
    client receives for a handler's result. *)
Definition respond {A} (r : res A) : Z * (A + ErrorResponse) :=
  match r with
  | Ok a => (200, inl a)
  | Raise (HTTPException s d) =>
      (s, inr (mkErrorResponse false d ("Status code: " ++ pretty s)))
  | Raise e => (500, inr (mkErrorResponse false "Internal server error" (str_exn e)))
  end.

End Program.

(** ** Notions of the specification *)

(** A well-formed Bearer credential: the scheme [bearer] in any letter
    case, one space, and a credential that is not empty. *)
Definition well_formed_bearer (h : string) : Prop :=
  exists sch cred, h = sch ++ " " ++ cred /\ lower sch = "bearer" /\ cred <> "".

(** Modelled from the spec: a well-formed identifier of an artifact is the
    text of an [ObjectId], 24 hexadecimal digits. *)
Definition well_formed_id (s : string) : bool :=
  (String.length s =? 24)%nat && all_hex s.


(** The artifacts of a collection that belong to [current_user]. *)
Definition owned_by (current_user : TokenData) (d : BlogDoc) : bool :=
  String.eqb (b_user_id d) (td_user_id current_user).

(** The keys of the user dictionary the specification allows the auth
    service to hand back. *)
Definition public_user_fields : gset string :=
  {["id"; "email"; "name"; "created_at"]}.

(** ** Variations of an environment *)

Definition with_driver (d : Driver) (env : Env) : Env :=
  mkEnv (settings env) d (stages env) (models env) (scheme env) (token_of_text env)
        (interpreter env).

Definition with_stages (c : Collaborators) (env : Env) : Env :=
  mkEnv (settings env) (driver env) c (models env) (scheme env) (token_of_text env)
        (interpreter env).

(** The driver [d], except that every insert into [history] raises [e]. *)
Definition history_insert_raises (e : exn) (d : Driver) : Driver :=
  mkDriver (fun c op =>
              match c, op with
              | History, InsertOne => Some e
              | _, _ => fault d c op
              end)
           (latency d).

(** The driver [d], except that every insert into [users] raises [e]. *)
Definition users_insert_raises (e : exn) (d : Driver) : Driver :=
  mkDriver (fun c op =>
              match c, op with
              | Users, InsertOne => Some e
              | _, _ => fault d c op
              end)
           (latency d).

(** The stages [c], except that [get_featured_image] raises [e] after
    [d] microseconds. *)
Definition featured_image_raises (e : exn) (d : Z) (c : Collaborators) : Collaborators :=
  mkCollaborators (validate c) (extract c) (clean c) (extract_and_categorize c)
                  (analyze c) (build_prompt c) (generate c)
                  (fun _ => mkCall (Raise e) d) (fetch_images c) (process c).

(** The stages [c], except that [fetch_images] raises [e] after [d]
    microseconds. *)
Definition section_images_raise (e : exn) (d : Z) (c : Collaborators) : Collaborators :=
  mkCollaborators (validate c) (extract c) (clean c) (extract_and_categorize c)
                  (analyze c) (build_prompt c) (generate c)
                  (get_featured_image c) (fun _ _ => mkCall (Raise e) d) (process c).

(** ** A concrete environment, for the examples *)

Module Demo.

Definition demo_settings : Settings :=
  mkSettings "mongodb+srv://cluster0.mongodb.net" "s3cret" "HS256" 60 "unsplash-key".

Definition quiet_driver : Driver := mkDriver (fun _ _ => None) (fun _ _ => 0).

(** The driver of a deployment whose server answers slowly: three seconds
    for an insert into [blogs], two for an insert into [history]. *)
Definition slow_driver : Driver :=
  mkDriver (fun _ _ => None)
           (fun c op =>
              match c, op with
              | Blogs, InsertOne => 3000000
              | History, InsertOne => 2000000
              | _, _ => 0
              end).

(** A driver that cannot write to [history]. *)
Definition no_history_driver : Driver :=
  mkDriver (fun c op =>
              match c, op with
              | History, InsertOne =>
                  Some (PyException "ServerSelectionTimeoutError" "No servers found")
              | _, _ => None
              end)
           (fun _ _ => 0).

(** A driver whose server rejects the insert into [users] because another
    registration of the same e-mail was committed after the pre-check. *)
Definition racing_driver : Driver :=
  mkDriver (fun c op =>
              match c, op with
              | Users, InsertOne =>
                  Some (DuplicateKeyError "E11000 duplicate key error collection: blog_generator.users")
              | _, _ => None
              end)
           (fun _ _ => 0).

Definition demo_keywords : KeywordData :=
  mkKeywordData ["rocq"; "proof"] ["logic"] "{rocq: 0.02}".

Definition demo_analysis : AnalysisData :=
  mkAnalysisData "A summary" "informational" ["verification"] 1200.

Definition demo_processed : ProcessedResult :=
  mkProcessedResult (mkBlogDict "A title" "<p>body</p>" None [])
                    (mkSeoAnalysis 812 77).

Definition demo_stages : Collaborators :=
  mkCollaborators
    (fun _ => mkCall (Ok (true, "")) 1000)
    (fun _ => mkCall (Ok (mkContentData "raw text" (Some "Page"))) 200000)
    (fun _ => mkCall (Ok "clean text") 1000)
    (fun _ => mkCall (Ok demo_keywords) 50000)
    (fun _ _ _ => mkCall (Ok demo_analysis) 50000)
    (fun _ _ _ _ _ _ => mkCall (Ok "prompt") 1000)
    (fun _ => mkCall (Ok "generated") 2000000)
    (fun _ => mkCall (Ok (Some "img0")) 100000)
    (fun _ _ => mkCall (Ok ["img1"; "img2"; "img3"]) 100000)
    (fun _ _ => mkCall (Ok demo_processed) 10000).

(** The same stages with a generator that raises. *)
Definition stages_generation_fails : Collaborators :=
  mkCollaborators
    (validate demo_stages) (extract demo_stages) (clean demo_stages)
    (extract_and_categorize demo_stages) (analyze demo_stages)
    (build_prompt demo_stages)
    (fun _ => mkCall (Raise (PyException "RuntimeError" "model unavailable")) 5000)
    (get_featured_image demo_stages) (fetch_images demo_stages)
    (process demo_stages).

(** The same stages with an image fetcher that finds the featured image and
    then raises while fetching the section images. *)
Definition stages_second_fetch_fails : Collaborators :=
  mkCollaborators
    (validate demo_stages) (extract demo_stages) (clean demo_stages)
    (extract_and_categorize demo_stages) (analyze demo_stages)
    (build_prompt demo_stages) (generate demo_stages)
    (get_featured_image demo_stages)
    (fun _ _ => mkCall (Raise (PyException "ConnectionError" "unsplash timeout")) 30000)
    (process demo_stages).

(** The same stages with an image fetcher whose first call raises. *)
Definition stages_first_fetch_fails : Collaborators :=
  mkCollaborators
    (validate demo_stages) (extract demo_stages) (clean demo_stages)
    (extract_and_categorize demo_stages) (analyze demo_stages)
    (build_prompt demo_stages) (generate demo_stages)
    (fun _ => mkCall (Raise (PyException "ConnectionError" "unsplash timeout")) 30000)
    (fetch_images demo_stages)
    (process demo_stages).

Definition demo_models : Models :=
  mkModels (fun d => Ok (mkImageData d)) (fun _ _ => None).

(** The answers of [HTTPBearer] in the releases of the framework that
    reject with [403 Forbidden]. *)
Definition bearer_403 : BearerScheme :=
  mkBearerScheme (HTTPException 403 "Not authenticated")
                 (HTTPException 403 "Invalid authentication credentials").

Definition alice_claims : Claims :=
  mkClaims (Some (VStr "000000000000000000000000")) (Some (VStr "alice@example.com"))
           (Some 3600).

Definition alice_token : token :=
  Compact "HS256" alice_claims (mkSignature "s3cret" "HS256" alice_claims).

(** A token signed with the application's key whose payload has no
    [exp] claim. *)
Definition no_exp_claims : Claims :=
  mkClaims (Some (VStr "000000000000000000000000")) (Some (VStr "alice@example.com")) None.

Definition no_exp_token : token :=
  Compact "HS256" no_exp_claims (mkSignature "s3cret" "HS256" no_exp_claims).

Definition demo_token_of_text (s : string) : token :=
  if String.eqb s "alice.jwt" then alice_token
  else if String.eqb s "noexp.jwt" then no_exp_token
  else Malformed s.

(** An interpreter that rounds an exact tie to the even hundredth and
    takes two microseconds between two readings of the clock. *)
Definition demo_interpreter : Interpreter :=
  mkInterpreter (fun start now => Z.odd ((now - start) / 10000)) 2.

Definition mk_env (s : Settings) (d : Driver) (c : Collaborators) : Env :=
  mkEnv s d c demo_models bearer_403 demo_token_of_text demo_interpreter.

Definition demo_env : Env := mk_env demo_settings quiet_driver demo_stages.

Definition w0 : World := mkWorld [] [] [] false 0 0 [].

Definition alice : UserCreate :=
  mkUserCreate "alice@example.com" "pw1" (Some "Alice").

Definition alice_identity : TokenData :=
  mkTokenData "000000000000000000000000" "alice@example.com" 3600.

Definition bob_identity : TokenData :=
  mkTokenData "000000000000000000000001" "bob@example.com" 3600.

Definition demo_request : BlogGenerationRequest :=
  mkRequest "https://example.com" "informative" 800.

(** The state after Alice has generated one article in the empty state. *)
Definition w_after_alice : World :=
  Eval vm_compute in
    snd (generate_blog demo_env demo_request alice_identity w0).

End Demo.

(** ** Notions used by the further properties *)

(** The e-mail addresses on file, one for every user document that has
    the field, in the order of the documents. *)
Definition emails (l : list (gmap string pyval)) : list pyval :=
  omap (fun d : gmap string pyval => d !! "email") l.

(** No document of [l] carries the identifier [oid]. *)
Definition fresh_blog_id (oid : string) (l : list BlogDoc) : Prop :=
  Forall (fun d => b_id d <> oid) l.

(** The artifact [doc] is the stored form of the response [resp] to a
    request of [user] for [url]. *)
Definition stored_form (doc : BlogDoc) (user url : string)
  (resp : BlogGenerationResponse) : Prop :=
  b_user_id doc = user /\ b_url doc = url
  /\ b_title doc = title (blog resp) /\ b_blog doc = blog resp
  /\ b_keywords doc = keywords resp /\ b_analysis doc = analysis resp
  /\ b_word_count doc = word_count resp
  /\ b_processing_time doc = processing_time resp.

(** The lines of a log written at level [ERROR]. *)
Definition error_lines (l : list (level * string)) : list (level * string) :=
  List.filter (fun p => match fst p with ERROR => true | WARNING => false end) l.

(** ** [db.py] and [main.py]: the life cycle of the client *)

Section Lifecycle.

Variable env : Env.

(** [client.admin.command('ping')]: a round trip to the server. *)
Variable ping : Call unit.

Definition check_mongo_connection : M bool :=
  try_except
    (get_mongo_client env ;;;
     call ping ;;;
     ret true)
    any_exception
    (fun e =>
       logger ERROR ("MongoDB connection check failed: " ++ str_exn e) ;;;
       ret false).

Definition close_mongo_connection : M unit :=
  fun w =>
    if mongo_client w then (Ok tt, set_mongo_client false w)
    else (Ok tt, w).

(** The database part of [lifespan] before its [yield], once
    [init_settings] has returned the settings of [env], and the part after
    the [yield]. *)
Definition lifespan_startup : M unit :=
  if truthy (mongodb_uri (settings env)) then
    try_except
      (ok <~ check_mongo_connection ;;
       if ok then ret tt
       else logger WARNING "MongoDB Atlas connection failed - DB features disabled")
      any_exception
      (fun e => logger WARNING ("MongoDB initialization skipped: " ++ str_exn e))
  else ret tt.

Definition lifespan_shutdown : M unit :=
  if truthy (mongodb_uri (settings env)) then
    try_except close_mongo_connection any_exception (fun _ => ret tt)
  else ret tt.

End Lifecycle.

(** ** [config.py] *)

(** The module-level singleton [_settings] and the warnings written through
    the root logger.  [Settings()] reads the process environment and the
    [.env] file; what it returns, or the validation error it raises, is the
    argument [environ] of the two functions. *)
Module AppConfig.

(** The fields of [Settings] that [init_settings] reads or assigns. *)
Record Settings : Type := mkSettings {
  llm_provider : string;
  gemini_api_key : string;
  openai_api_key : string;
  app_env : string;
  mongodb_uri : string;
  jwt_secret_key : string
}.

Record Process : Type := mkProcess {
  _settings : option Settings;
  warnings : list string
}.

Definition warning (msg : string) (p : Process) : Process :=
  mkProcess (_settings p) (warnings p ++ [msg])%list.

Definition assign (s : Settings) (p : Process) : Process :=
  mkProcess (Some s) (warnings p).

Definition set_llm_provider (v : string) (s : Settings) : Settings :=
  mkSettings v (gemini_api_key s) (openai_api_key s) (app_env s)
             (mongodb_uri s) (jwt_secret_key s).

Definition str_in (x : string) (l : list string) : bool :=
  existsb (String.eqb x) l.

(** [init_settings] of [app/config.py].  The letters of the two provider
    names have no other upper-case form than the ASCII one, so [lower]
    decides the two comparisons as [str.lower] does. *)
Definition init_settings (environ : res Settings) (p : Process)
  : res Settings * Process :=
  match environ with
  | Raise e => (Raise e, p)
  | Ok s =>
      let '(s, p) :=
        if negb (str_in (lower (llm_provider s)) ["openai"; "gemini"])
        then (set_llm_provider "gemini" s,
              warning ("Unknown LLM_PROVIDER: " ++ llm_provider s
                       ++ ". Defaulting to 'gemini'.") p)
        else (s, p) in
      let p :=
        if String.eqb (lower (llm_provider s)) "openai"
           && negb (truthy (openai_api_key s))
        then warning "LLM_PROVIDER=openai but OPENAI_API_KEY is not set." p
        else p in
      let p :=
        if String.eqb (lower (llm_provider s)) "gemini"
           && negb (truthy (gemini_api_key s))
        then warning "LLM_PROVIDER=gemini but GEMINI_API_KEY is not set." p
        else p in
      let p :=
        if String.eqb (app_env s) "production" && negb (truthy (mongodb_uri s))
        then warning "APP_ENV=production but MONGODB_URI is not set. Database features disabled." p
        else p in
      let p :=
        if String.eqb (app_env s) "production"
           && String.eqb (jwt_secret_key s)
                         "change-this-in-production-use-secrets-manager"
        then warning "Using default JWT_SECRET_KEY in production. Please set a secure secret!" p
        else p in
      (Ok s, assign s p)
  end.

Definition get_settings (environ : res Settings) (p : Process)
  : res Settings * Process :=
  match _settings p with
  | None => init_settings environ p
  | Some s => (Ok s, p)
  end.

(** The provider names the application knows. *)
Definition recognised (s : Settings) : Prop :=
  lower (llm_provider s) = "openai" \/ lower (llm_provider s) = "gemini".

End AppConfig.

Module BackendConfig.

(** The fields of [Settings] that [init_settings] of
    [backend/app/config.py] reads; the class declares the empty string as
    the default of [jwt_secret_key]. *)
Record Settings : Type := mkSettings {
  gemini_api_key : string;
  app_env : string;
  mongodb_uri : string;
  jwt_secret_key : string
}.

Record Process : Type := mkProcess {
  _settings : option Settings;
  warnings : list string
}.

Definition warning (msg : string) (p : Process) : Process :=
  mkProcess (_settings p) (warnings p ++ [msg])%list.

Definition assign (s : Settings) (p : Process) : Process :=
  mkProcess (Some s) (warnings p).

Definition jwt_warning : string :=
  "Using default JWT_SECRET_KEY in production. Please set a secure secret!".

Definition init_settings (environ : res Settings) (p : Process)
  : res Settings * Process :=
  match environ with
  | Raise e => (Raise e, p)
  | Ok s =>
      let p :=
        if negb (truthy (gemini_api_key s))
        then warning "GEMINI_API_KEY is not set. Blog generation will fail." p
        else p in
      let p :=
        if String.eqb (app_env s) "production" && negb (truthy (mongodb_uri s))
        then warning "APP_ENV=production but MONGODB_URI is not set. Database features disabled." p
        else p in
      let p :=
        if String.eqb (app_env s) "production"
           && String.eqb (jwt_secret_key s)
                         "change-this-in-production-use-secrets-manager"
        then warning jwt_warning p
        else p in
      (Ok s, assign s p)
  end.

Definition get_settings (environ : res Settings) (p : Process)
  : res Settings * Process :=
  match _settings p with
  | None => init_settings environ p
  | Some s => (Ok s, p)
  end.

End BackendConfig.


(** * Properties *)

(** ** Running the monad *)

Lemma bind_Ok_inv {A B} (c : M A) (k : A -> M B) w b w2 :
  bind c k w = (Ok b, w2) ->
  exists a w1, c w = (Ok a, w1) /\ k a w1 = (Ok b, w2).
Proof.
  unfold bind. destruct (c w) as [[a|e] w1]; intros H.
  - exists a, w1. auto.
  - discriminate.
Qed.

Lemma try_except_Ok_inv {A} (c : M A) catches h w a w2 :
  try_except c catches h w = (Ok a, w2) ->
  c w = (Ok a, w2)
  \/ exists e w1, c w = (Raise e, w1) /\ catches e = true /\ h e w1 = (Ok a, w2).
Proof.
  unfold try_except. destruct (c w) as [[x|e] w1]; intros H.
  - left. exact H.
  - destruct (catches e) eqn:Hc; [| discriminate].
    right. exists e, w1. auto.
Qed.

Lemma call_Ok_inv {A} (c : Call A) w a w2 :
  call c w = (Ok a, w2) -> outcome c = Ok a /\ w2 = advance (took c) w.
Proof.
  unfold call, bind, lift_res, tick. destruct (outcome c); intros H.
  - injection H as <- <-. auto.
  - discriminate.
Qed.

Lemma call_Raise_inv {A} (c : Call A) w e w2 :
  call c w = (Raise e, w2) -> outcome c = Raise e /\ w2 = advance (took c) w.
Proof.
  unfold call, bind, lift_res, tick. destruct (outcome c); intros H.
  - discriminate.
  - injection H as <- <-. auto.
Qed.

(** One step of reading a hypothesis [c w = (Ok a, w')] backwards through
    the combinator at the head of [c]. *)
Ltac minv_step :=
  match goal with
  | H : bind _ _ _ = (Ok _, _) |- _ =>
      let a := fresh "a" in
      let w := fresh "w" in
      let H1 := fresh "H" in
      apply bind_Ok_inv in H; destruct H as (a & w & H1 & H); cbv beta in H
  | H : try_except _ _ _ _ = (Ok _, _) |- _ =>
      let e := fresh "e" in
      let w := fresh "w" in
      let H1 := fresh "H" in
      let Hc := fresh "Hc" in
      apply try_except_Ok_inv in H;
      destruct H as [H | (e & w & H1 & Hc & H)]; cbv beta in H
  | H : call _ _ = (Ok _, _) |- _ =>
      let H1 := fresh "H" in
      apply call_Ok_inv in H; destruct H as [H1 H]; subst
  | H : call _ _ = (Raise _, _) |- _ =>
      let H1 := fresh "H" in
      apply call_Raise_inv in H; destruct H as [H1 H]; subst
  | H : ret _ _ = (_, _) |- _ => unfold ret in H
  | H : raise _ _ = (_, _) |- _ => unfold raise in H
  | H : lift_res _ _ = (_, _) |- _ => unfold lift_res in H
  | H : time_time _ = (_, _) |- _ => unfold time_time in H
  | H : utcnow _ = (_, _) |- _ => unfold utcnow in H
  | H : logger _ _ _ = (_, _) |- _ => unfold logger in H
  | H : tick _ _ = (_, _) |- _ => unfold tick in H
  | H : (Raise _, _) = (Ok _, _) |- _ => discriminate H
  | H : (Ok _, _) = (Raise _, _) |- _ => discriminate H
  | H : (Ok _, _) = (Ok _, _) |- _ => injection H; clear H; intros; subst
  | H : (Raise _, _) = (Raise _, _) |- _ => injection H; clear H; intros; subst
  | H : (?r, _) = (Ok _, _) |- _ => injection H; clear H; intros; subst
  | H : (if ?b then _ else _) _ = (_, _) |- _ => destruct b eqn:?
  | H : (let '(_, _) := ?p in _) _ = (_, _) |- _ => destruct p
  | H : (match ?x with _ => _ end) _ = (_, _) |- _ => destruct x eqn:?
  | H : (match ?x with _ => _ end) = (_, _) |- _ => destruct x eqn:?
  | H : (fun _ => _) _ = (_, _) |- _ => cbv beta in H
  end.

Ltac minv := repeat minv_step.

(** The fields of a state written as a chain of updates. *)
Ltac wsimpl :=
  cbn [users history blogs mongo_client next_oid clock logs store
       advance log_line set_users set_history set_blogs set_mongo_client
       bump_oid fst snd] in *.

(** ** Rounding *)

(** Whichever way an exact tie goes, [round2] is the nearest number of
    hundredths. *)
Lemma round2_error up t : Z.abs (10000 * round2 up t - t) <= 5000.
Proof.
  unfold round2.
  pose proof (Z.div_mod t 10000 ltac:(lia)) as E.
  pose proof (Z.mod_pos_bound t 10000 ltac:(lia)) as B.
  destruct (Z.ltb_spec (t mod 10000) 5000);
    [| destruct (Z.ltb_spec 5000 (t mod 10000)); [| destruct up]]; lia.
Qed.

(** Away from a tie the direction plays no part. *)
Lemma round2_no_tie up up' t :
  t mod 10000 <> 5000 -> round2 up t = round2 up' t.
Proof.
  unfold round2. intros N.
  destruct (Z.ltb_spec (t mod 10000) 5000);
    [| destruct (Z.ltb_spec 5000 (t mod 10000)); [| lia]]; reflexivity.
Qed.
(** ** What the database helpers do to the state *)

Lemma get_mongo_client_Ok_inv env w r w2 :
  get_mongo_client env w = (Ok r, w2) ->
  store w2 = store w /\ clock w2 = clock w /\ next_oid w2 = next_oid w
  /\ logs w2 = logs w.
Proof.
  unfold get_mongo_client. intros H. minv; wsimpl; auto.
Qed.

Lemma driver_call_Ok_inv env c op w r w2 :
  driver_call env c op w = (Ok r, w2) ->
  fault (driver env) c op = None /\ w2 = advance (latency (driver env) c op) w.
Proof.
  unfold driver_call. intros H. minv. auto.
Qed.

Lemma blogs_insert_one_Ok_inv env doc w oid w2 :
  blogs_insert_one env doc w = (Ok oid, w2) ->
  fault (driver env) Blogs InsertOne = None
  /\ oid = mk_oid (next_oid w)
  /\ users w2 = users w /\ history w2 = history w
  /\ blogs w2 = (blogs w ++ [bson_blog (doc oid)])%list
  /\ clock w2 = clock w + latency (driver env) Blogs InsertOne.
Proof.
  unfold blogs_insert_one. intros H. minv.
  match goal with
  | D : driver_call _ _ _ _ = _ |- _ => apply driver_call_Ok_inv in D as [? ->]
  end.
  wsimpl. auto 10.
Qed.

Lemma log_user_action_Ok_inv env uid action data w r w2 :
  log_user_action env uid action data w = (Ok r, w2) ->
  fault (driver env) History InsertOne = None
  /\ users w2 = users w /\ blogs w2 = blogs w
  /\ history w2
     = (history w ++ [mkHistoryDoc uid action (default [] data)
                        (bson_millis (clock w))])%list
  /\ clock w2 = clock w + latency (driver env) History InsertOne.
Proof.
  unfold log_user_action, history_insert_one, get_history_collection,
    get_mongo_db. intros H. minv.
  match goal with
  | D : driver_call _ _ _ _ = _ |- _ => apply driver_call_Ok_inv in D as [? ->]
  end.
  match goal with
  | D : get_mongo_client _ _ = _ |- _ =>
      apply get_mongo_client_Ok_inv in D as (Hs & Hk & _)
  end.
  injection Hs as Hu Hh Hb. wsimpl. unfold bson_history.
  cbn [h_user_id h_action h_data h_timestamp].
  rewrite Hu, Hh, Hb, Hk. destruct data; auto 10.
Qed.

Lemma get_blogs_collection_Ok_inv env w c w2 :
  get_blogs_collection env w = (Ok c, w2) ->
  store w2 = store w /\ clock w2 = clock w /\ next_oid w2 = next_oid w.
Proof.
  unfold get_blogs_collection, get_mongo_db. intros H. minv.
  match goal with
  | D : get_mongo_client _ _ = _ |- _ => apply get_mongo_client_Ok_inv in D
  end.
  tauto.
Qed.

(** ** The pipeline: what is measured, what is persisted *)

(** C2 (as amended).  In every successful run the reported
    [processing_time] is the time from the start of the handler to the
    reading taken after SEO post-processing, just before the response is
    built: the whole duration of the call less the insert of the artifact
    and the insert of the audit entry, which both come later.  It is a whole
    number of hundredths of a second, at most half a hundredth away from
    that duration: the nearest one, and at an exact tie the one the
    interpreter's float is nearer to. *)
Theorem processing_time_measured_before_persistence
  env request current_user w response w1 :
  generate_blog env request current_user w = (Ok response, w1) ->
  let measured :=
    clock w1 - clock w
    - latency (driver env) Blogs InsertOne
    - latency (driver env) History InsertOne in
  processing_time response
  = round2 (tie_rounds_up (interpreter env) (clock w) (clock w + measured))
           measured
  /\ Z.abs (10000 * processing_time response - measured) <= 5000.
Proof.
  intros H measured.
  assert (E : processing_time response
              = round2 (tie_rounds_up (interpreter env) (clock w)
                                      (clock w + measured)) measured);
    [| split; [exact E | rewrite E; apply round2_error]].
  subst measured.
  unfold generate_blog, generate_blog_body, generate_blog_except in H.
  minv_step. minv_step. minv_step.
  2:{ destruct (is_HTTPException e); minv. }
  minv.
  repeat match goal with
  | D : get_blogs_collection _ _ = _ |- _ =>
      apply get_blogs_collection_Ok_inv in D as (_ & ? & _)
  | D : blogs_insert_one _ _ _ = _ |- _ =>
      apply blogs_insert_one_Ok_inv in D as (_ & _ & _ & _ & _ & ?)
  | D : log_user_action _ _ _ _ _ = _ |- _ =>
      apply log_user_action_Ok_inv in D as (_ & _ & _ & _ & ?)
  end.
  wsimpl. cbn [processing_time]. f_equal; [f_equal |]; lia.
Qed.

Lemma processing_time_measured_before_persistence_witness :
  exists response w1,
    generate_blog (Demo.mk_env Demo.demo_settings Demo.slow_driver Demo.demo_stages)
      Demo.demo_request Demo.alice_identity Demo.w0 = (Ok response, w1)
    /\ Z.abs (10000 * processing_time response
               - (clock w1 - 0 - 3000000 - 2000000)) <= 5000.
Proof.
  eexists. eexists. split.
  - vm_compute. reflexivity.
  - apply (processing_time_measured_before_persistence
             (Demo.mk_env Demo.demo_settings Demo.slow_driver Demo.demo_stages)
             Demo.demo_request Demo.alice_identity Demo.w0).
    vm_compute. reflexivity.
Defined.

(** C2 (as stated) fails.  With a store that takes three seconds to insert
    the artifact and two to insert the audit entry, the handler returns
    7.513 s after it started, and reports 2.51 s: neither insert is part of
    the reported time. *)
Lemma processing_time_omits_persistence_and_audit :
  exists response w1,
    generate_blog (Demo.mk_env Demo.demo_settings Demo.slow_driver Demo.demo_stages)
      Demo.demo_request Demo.alice_identity Demo.w0 = (Ok response, w1)
    /\ clock w1 - clock Demo.w0 = 7513000
    /\ processing_time response = 251
    /\ (forall up, processing_time response <> round2 up (clock w1 - clock Demo.w0))
    /\ 10000 * processing_time response
       < latency Demo.slow_driver Blogs InsertOne
         + latency Demo.slow_driver History InsertOne.
Proof.
  eexists. eexists. split; [vm_compute; reflexivity |].
  vm_compute. repeat split; intros; congruence.
Qed.

(** Running a program forwards in the goal: unfold the combinators, then
    use the known outcome of each call that a [match] is waiting for. *)
Ltac unfold_monad :=
  unfold call;
  unfold bind, try_except, tick, lift_res, ret, raise, time_time, utcnow, logger.

Ltac unfold_db :=
  unfold log_user_action;
  unfold blogs_insert_one, blogs_find_one, users_insert_one, users_find_one,
    history_insert_one, get_blogs_collection, get_history_collection,
    get_users_collection;
  unfold get_mongo_db; unfold get_mongo_client, driver_call.

Ltac env_simpl :=
  cbn [settings driver stages models scheme token_of_text interpreter fault
       latency
       with_driver with_stages history_insert_raises users_insert_raises
       featured_image_raises section_images_raise
       validate extract clean extract_and_categorize analyze build_prompt
       generate get_featured_image fetch_images process outcome took].

Ltac mrun :=
  repeat (cbn [any_exception negb andb orb]; wsimpl;
          match goal with
          | H : ?x = _ |- context [match ?x with _ => _ end] =>
              progress (rewrite H)
          | H : ?x = _ |- context [if ?x then _ else _] => progress (rewrite H)
          | H : ?x = true |- context [?x] => progress (rewrite H)
          | H : ?x = false |- context [?x] => progress (rewrite H)
          end);
  cbn [any_exception negb andb orb]; wsimpl.

(** C6.  When the stages before it succeed and the generator raises, the
    handler raises the 500 "Blog generation failed" error; the three
    collections are what they were, so no artifact and no audit entry has
    been written. *)
Theorem generation_failure_persists_nothing
  env request current_user w
  error_msg content_data cleaned_text keyword_data analysis_data prompt e :
  outcome (validate (stages env) (rq_url request)) = Ok (true, error_msg) ->
  outcome (extract (stages env) (rq_url request)) = Ok content_data ->
  outcome (clean (stages env) (cd_text content_data)) = Ok cleaned_text ->
  truthy cleaned_text = true ->
  outcome (extract_and_categorize (stages env) cleaned_text) = Ok keyword_data ->
  outcome (analyze (stages env) cleaned_text (default "" (cd_title content_data))
                   (primary_keywords keyword_data)) = Ok analysis_data ->
  outcome (build_prompt (stages env) (rq_url request)
                        (default "" (cd_title content_data)) analysis_data
                        keyword_data (rq_tone request) (rq_word_count request))
    = Ok prompt ->
  outcome (generate (stages env) prompt) = Raise e ->
  exists w',
    generate_blog env request current_user w
    = (Raise (HTTPException 500 ("Blog generation failed: " ++ str_exn e)), w')
    /\ store w' = store w
    /\ fst (respond (A := BlogGenerationResponse)
              (Raise (HTTPException 500 ("Blog generation failed: " ++ str_exn e))))
       = 500.
Proof.
  intros Hv Hx Hc Ht Hk Ha Hp Hg.
  unfold generate_blog, generate_blog_body, generate_blog_except. unfold_monad. mrun.
  eexists. split; [reflexivity |]. split; reflexivity.
Qed.

Lemma generation_failure_persists_nothing_witness :
  exists w',
    generate_blog
      (Demo.mk_env Demo.demo_settings Demo.quiet_driver Demo.stages_generation_fails)
      Demo.demo_request Demo.alice_identity Demo.w0
    = (Raise (HTTPException 500 "Blog generation failed: model unavailable"), w')
    /\ store w' = store Demo.w0
    /\ fst (respond (A := BlogGenerationResponse)
              (Raise (HTTPException 500 "Blog generation failed: model unavailable")))
       = 500.
Proof.
  apply (generation_failure_persists_nothing
           (Demo.mk_env Demo.demo_settings Demo.quiet_driver Demo.stages_generation_fails)
           Demo.demo_request Demo.alice_identity Demo.w0
           "" (mkContentData "raw text" (Some "Page")) "clean text"
           Demo.demo_keywords Demo.demo_analysis "prompt"
           (PyException "RuntimeError" "model unavailable"));
    reflexivity.
Defined.

(** ** Audit writes *)

Lemma fetch_images_step_with_driver d env :
  fetch_images_step (with_driver d env) = fetch_images_step env.
Proof. reflexivity. Qed.

(** An audit write that would succeed raises [e] when the driver raises [e]
    on inserts into [history]; the collections are left as they were. *)
Lemma log_user_action_fault env e uid action data w r w1 :
  log_user_action env uid action data w = (Ok r, w1) ->
  exists w2,
    log_user_action (with_driver (history_insert_raises e (driver env)) env)
                    uid action data w = (Raise e, w2)
    /\ store w2 = store w.
Proof.
  unfold log_user_action, history_insert_one, get_history_collection,
    get_mongo_db, get_mongo_client, driver_call.
  intros H. minv; unfold_monad; env_simpl; mrun;
    (eexists; split; [reflexivity | reflexivity]).
Qed.

Lemma logout_audit_failure env e current_user w r w1 :
  logout env current_user w = (Ok r, w1) ->
  exists w2,
    logout (with_driver (history_insert_raises e (driver env)) env) current_user w
    = (Raise e, w2)
    /\ store w2 = store w.
Proof.
  unfold logout. intros H. minv.
  match goal with
  | D : log_user_action _ _ _ _ _ = _ |- _ =>
      destruct (log_user_action_fault _ e _ _ _ _ _ _ D) as (w2 & E & S)
  end.
  exists w2. split; [| exact S].
  unfold bind. rewrite E. reflexivity.
Qed.

(** ** The user service *)

Lemma users_find_one_Ok_inv env email w r w2 :
  users_find_one env email w = (Ok r, w2) ->
  fault (driver env) Users FindOne = None
  /\ r = List.find (has_email email) (users w)
  /\ w2 = advance (latency (driver env) Users FindOne) w.
Proof.
  unfold users_find_one. intros H. minv.
  match goal with
  | D : driver_call _ _ _ _ = _ |- _ => apply driver_call_Ok_inv in D as [? ->]
  end.
  wsimpl. auto.
Qed.

Lemma get_users_collection_Ok_inv env w c w2 :
  get_users_collection env w = (Ok c, w2) ->
  store w2 = store w /\ clock w2 = clock w /\ next_oid w2 = next_oid w
  /\ logs w2 = logs w.
Proof.
  unfold get_users_collection, get_mongo_db. intros H. minv.
  match goal with
  | D : get_mongo_client _ _ = _ |- _ => apply get_mongo_client_Ok_inv in D
  end.
  tauto.
Qed.

Lemma to_bson_of_option_str o : to_bson (of_option_str o) = of_option_str o.
Proof. destruct o; reflexivity. Qed.

(** The dictionary [create_user] returns, and the document it inserted. *)
Lemma create_user_Ok_inv env user_data w user w2 :
  create_user env user_data w = (Ok user, w2) ->
  let created := clock w + latency (driver env) Users FindOne in
  let updated := created + Z.of_N (utcnow_gap (interpreter env)) in
  let id := mk_oid (next_oid w) in
  user = <["id" := VStr id]>
         (<["email" := VStr (uc_email user_data)]>
         (<["name" := of_option_str (uc_name user_data)]>
         (<["created_at" := VDatetime created]> ∅)))
  /\ users w2
     = (users w ++
        [<["_id" := VObjectId id]>
         (<["email" := VStr (uc_email user_data)]>
         (<["password_hash" := VStr (uc_password user_data)]>
         (<["name" := of_option_str (uc_name user_data)]>
         (<["created_at" := VDatetime (bson_millis created)]>
         (<["updated_at" := VDatetime (bson_millis updated)]> ∅)))))])%list
  /\ history w2 = history w
  /\ blogs w2 = blogs w
  /\ truthy_doc (List.find (has_email (uc_email user_data)) (users w)) = false.
Proof.
  unfold create_user, hash_password, users_insert_one. intros H. minv.
  repeat match goal with
  | D : driver_call _ _ _ _ = _ |- _ => apply driver_call_Ok_inv in D as [? ->]
  | D : users_find_one _ _ _ = _ |- _ =>
      apply users_find_one_Ok_inv in D as (? & -> & ->)
  | D : get_users_collection _ _ = _ |- _ =>
      apply get_users_collection_Ok_inv in D as (Hs & Hk & Hn & _);
      injection Hs as Hu Hh Hb
  end.
  unfold subscript in *. simplify_map_eq. wsimpl.
  rewrite Hu in *. rewrite Hh, Hb, Hk, Hn. cbn [py_str].
  rewrite !fmap_insert, fmap_empty. cbn [to_bson].
  rewrite to_bson_of_option_str. repeat split; auto.
Qed.

(** The functions that never insert into [history] do not see that fault. *)
Lemma create_user_history_fault env e :
  create_user (with_driver (history_insert_raises e (driver env)) env)
  = create_user env.
Proof. reflexivity. Qed.

Lemma authenticate_user_history_fault env e :
  authenticate_user (with_driver (history_insert_raises e (driver env)) env)
  = authenticate_user env.
Proof. reflexivity. Qed.

Lemma create_access_token_with_driver env d :
  create_access_token (with_driver d env) = create_access_token env.
Proof. reflexivity. Qed.

Lemma get_blogs_collection_with_driver env d :
  get_blogs_collection (with_driver d env) = get_blogs_collection env.
Proof. reflexivity. Qed.

Lemma blogs_insert_one_history_fault env e :
  blogs_insert_one (with_driver (history_insert_raises e (driver env)) env)
  = blogs_insert_one env.
Proof. reflexivity. Qed.

Ltac dedup :=
  repeat match goal with
  | H1 : ?x = Ok ?a, H2 : ?x = Ok ?b |- _ =>
      rewrite H1 in H2; injection H2 as <-
  end.

Ltac audit_fault e :=
  dedup;
  match goal with
  | D : log_user_action _ _ _ _ _ = (Ok _, _) |- _ =>
      let w2 := fresh "w" in
      let E := fresh "E" in
      let S := fresh "S" in
      destruct (log_user_action_fault _ e _ _ _ _ _ _ D) as (w2 & E & S)
  end.

Lemma register_audit_failure env e user_data w r w1 :
  register env user_data w = (Ok r, w1) ->
  exists w2,
    register (with_driver (history_insert_raises e (driver env)) env) user_data w
    = (Raise e, w2)
    /\ users w2 = users w1
    /\ history w2 = history w.
Proof.
  unfold register. intros H. minv. audit_fault e.
  env_simpl. rewrite create_user_history_fault.
  unfold_monad. mrun.
  match goal with
  | D : log_user_action _ _ _ _ _ = (Ok _, _) |- _ =>
      apply log_user_action_Ok_inv in D as (_ & Hu & _)
  end.
  match goal with
  | D : create_user _ _ _ = (Ok _, _) |- _ =>
      apply create_user_Ok_inv in D as (_ & _ & Hh & _)
  end.
  match goal with
  | S : store _ = store _ |- _ => injection S as Su Sh Sb
  end.
  eexists. split; [reflexivity |]. split; congruence.
Qed.

Lemma login_audit_failure env e creds w r w1 :
  login env creds w = (Ok r, w1) ->
  exists w2,
    login (with_driver (history_insert_raises e (driver env)) env) creds w
    = (Raise e, w2)
    /\ users w2 = users w1 /\ blogs w2 = blogs w1.
Proof.
  unfold login. intros H. minv. audit_fault e.
  env_simpl. rewrite authenticate_user_history_fault.
  rewrite create_access_token_with_driver.
  unfold_monad. mrun.
  match goal with
  | D : log_user_action _ _ _ _ _ = (Ok _, _) |- _ =>
      apply log_user_action_Ok_inv in D as (_ & Hu & Hb & _)
  end.
  match goal with
  | S : store _ = store _ |- _ => injection S as Su Sh Sb
  end.
  eexists. split; [reflexivity |]. split; congruence.
Qed.

(** The image step only lets time pass and writes to the log. *)
Lemma fetch_images_step_frame env keyword_data w r w' :
  fetch_images_step env keyword_data w = (r, w') ->
  store w' = store w /\ mongo_client w' = mongo_client w
  /\ next_oid w' = next_oid w.
Proof.
  unfold fetch_images_step. unfold_monad.
  repeat match goal with
  | |- context [match ?x with _ => _ end] =>
      lazymatch x with
      | context [match _ with _ => _ end] => fail
      | _ => destruct x
      end
  end;
  intros H; injection H as <- <-; wsimpl; auto.
Qed.

Lemma generate_blog_audit_failure env e request current_user w r w1 :
  generate_blog env request current_user w = (Ok r, w1) ->
  exists w2,
    generate_blog (with_driver (history_insert_raises e (driver env)) env)
                  request current_user w
    = (Raise (if is_HTTPException e then e
              else HTTPException 500 ("Internal server error: " ++ str_exn e)), w2)
    /\ blogs w2 = blogs w1
    /\ history w2 = history w.
Proof.
  unfold generate_blog, generate_blog_body, generate_blog_except. intros H.
  minv_step. minv_step. minv_step.
  2:{ destruct (is_HTTPException e0); minv. }
  minv. audit_fault e.
  env_simpl. rewrite fetch_images_step_with_driver, get_blogs_collection_with_driver,
    blogs_insert_one_history_fault.
  unfold_monad. mrun.
  repeat match goal with
  | D : log_user_action _ _ _ _ _ = (Ok _, _) |- _ =>
      apply log_user_action_Ok_inv in D as (_ & _ & Hb1 & _)
  | D : blogs_insert_one _ _ _ = (Ok _, _) |- _ =>
      apply blogs_insert_one_Ok_inv in D as (_ & _ & _ & Hh7 & _)
  | D : get_blogs_collection _ _ = (Ok _, _) |- _ =>
      apply get_blogs_collection_Ok_inv in D as (Hs6 & _)
  | D : fetch_images_step _ _ _ = _ |- _ =>
      apply fetch_images_step_frame in D as (Hs5 & _)
  | S : store _ = store _ |- _ => injection S; clear S; intros
  end.
  wsimpl.
  destruct (is_HTTPException e); (eexists; split; [reflexivity |]);
    wsimpl; split; congruence.
Qed.

(** C1 (as amended).  A call that succeeds when the audit entry can be
    written fails when the insert into [history] raises [e] and nothing else
    changes: [register], [login] and [logout] raise [e] itself,
    [generate_blog] raises [e] when it is an [HTTPException] and the 500
    "Internal server error" otherwise.  The user document, respectively the
    artifact, that the call had already inserted stays in the store, and no
    audit entry is added. *)
Theorem audit_failure_fails_the_operation env e :
  let env' := with_driver (history_insert_raises e (driver env)) env in
  (forall user_data w r w1,
      register env user_data w = (Ok r, w1) ->
      exists w2, register env' user_data w = (Raise e, w2)
                 /\ users w2 = users w1 /\ history w2 = history w)
  /\ (forall creds w r w1,
         login env creds w = (Ok r, w1) ->
         exists w2, login env' creds w = (Raise e, w2)
                    /\ users w2 = users w1 /\ blogs w2 = blogs w1)
  /\ (forall current_user w r w1,
         logout env current_user w = (Ok r, w1) ->
         exists w2, logout env' current_user w = (Raise e, w2) /\ store w2 = store w)
  /\ (forall request current_user w r w1,
         generate_blog env request current_user w = (Ok r, w1) ->
         exists w2,
           generate_blog env' request current_user w
           = (Raise (if is_HTTPException e then e
                     else HTTPException 500 ("Internal server error: " ++ str_exn e)),
              w2)
           /\ blogs w2 = blogs w1 /\ history w2 = history w).
Proof.
  intros env'. repeat split; intros.
  - eapply register_audit_failure; eauto.
  - eapply login_audit_failure; eauto.
  - eapply logout_audit_failure; eauto.
  - eapply generate_blog_audit_failure; eauto.
Qed.

Lemma audit_failure_fails_the_operation_witness :
  exists w2,
    logout (with_driver (history_insert_raises
                           (PyException "AutoReconnect" "connection closed")
                           (driver Demo.demo_env)) Demo.demo_env)
           Demo.alice_identity Demo.w0
    = (Raise (PyException "AutoReconnect" "connection closed"), w2)
    /\ store w2 = store Demo.w0.
Proof.
  refine (proj1 (proj2 (proj2 (audit_failure_fails_the_operation Demo.demo_env
           (PyException "AutoReconnect" "connection closed"))))
           Demo.alice_identity Demo.w0 "Logged out successfully" _ _).
  vm_compute. reflexivity.
Defined.

(** C1 (as stated) fails.  With a store that refuses inserts into
    [history]: [logout] raises instead of returning its message;
    [register] raises although the user has been inserted;
    [generate_blog] answers 500 although the artifact has been inserted. *)
Lemma audit_failure_reaches_the_caller :
  let env := Demo.mk_env Demo.demo_settings Demo.no_history_driver Demo.demo_stages in
  let down := PyException "ServerSelectionTimeoutError" "No servers found" in
  fst (logout env Demo.alice_identity Demo.w0) = Raise down
  /\ fst (register env Demo.alice Demo.w0) = Raise down
  /\ length (users (snd (register env Demo.alice Demo.w0))) = 1%nat
  /\ fst (generate_blog env Demo.demo_request Demo.alice_identity Demo.w0)
     = Raise (HTTPException 500 "Internal server error: No servers found")
  /\ length (blogs (snd (generate_blog env Demo.demo_request Demo.alice_identity Demo.w0)))
     = 1%nat
  /\ fst (respond (fst (logout env Demo.alice_identity Demo.w0))) = 500.
Proof. vm_compute. repeat split; reflexivity. Qed.

(** ** Image fetching *)

Lemma fetch_images_step_first_call_raises env e d keyword_data w :
  exists w',
    fetch_images_step (with_stages (featured_image_raises e d (stages env)) env)
                      keyword_data w = (Ok (None, []), w')
    /\ store w' = store w /\ mongo_client w' = mongo_client w
    /\ next_oid w' = next_oid w.
Proof.
  unfold fetch_images_step. unfold_monad. env_simpl.
  destruct (truthy (unsplash_access_key (settings env)));
    (eexists; split; [reflexivity | wsimpl; auto]).
Qed.

Lemma fetch_images_step_second_call_raises env e d keyword_data w r w1 :
  fetch_images_step env keyword_data w = (Ok r, w1) ->
  exists w',
    fetch_images_step (with_stages (section_images_raise e d (stages env)) env)
                      keyword_data w = (Ok (fst r, []), w')
    /\ store w' = store w /\ mongo_client w' = mongo_client w
    /\ next_oid w' = next_oid w.
Proof.
  unfold fetch_images_step, any_exception. unfold_monad. env_simpl.
  repeat match goal with
  | |- context [match ?x with _ => _ end] =>
      lazymatch x with
      | context [match _ with _ => _ end] => fail
      | _ => destruct x; cbn beta iota
      end
  end;
  intros H; try discriminate; injection H as <- <-;
    (eexists; split; [reflexivity | wsimpl; auto]).
Qed.

(** The rest of the pipeline after a degraded image step: the facts read
    from the successful run decide every later call. *)
Ltac finish_degraded_run M :=
  wsimpl; cbn [title body] in *;
  match goal with
  | D : match BlogContent_check ?m ?t ?b with _ => _ end = Ok _ |- _ =>
      destruct (BlogContent_check m t b) eqn:?;
      [discriminate D | injection D as <-]
  end;
  unfold_monad; env_simpl; mrun; cbn [title body]; mrun;
  try rewrite M; mrun;
  (eexists; eexists; split; [reflexivity | cbn; auto 10]).

(** C8 (as amended).  Take a run that succeeds.  The same run in which
    [get_featured_image] raises succeeds too, with no featured image and no
    additional images.  The same run in which [fetch_images] raises succeeds
    too, with no additional images and with the featured image the first
    call had produced.  In both, the status is 200 and the title, the body,
    the keyword and analysis payloads and the word count are those of the
    successful run. *)
Theorem image_failure_degrades
  env request current_user w response w1 e d :
  generate_blog env request current_user w = (Ok response, w1) ->
  let same_but_images (r : BlogGenerationResponse) :=
    success r = true
    /\ title (blog r) = title (blog response)
    /\ body (blog r) = body (blog response)
    /\ keywords r = keywords response
    /\ analysis r = analysis response
    /\ word_count r = word_count response
    /\ fst (respond (Ok r)) = 200 in
  (exists r1 wa,
      generate_blog (with_stages (featured_image_raises e d (stages env)) env)
                    request current_user w = (Ok r1, wa)
      /\ featured_image (blog r1) = None
      /\ additional_images (blog r1) = []
      /\ same_but_images r1)
  /\ (exists r2 wb,
         generate_blog (with_stages (section_images_raise e d (stages env)) env)
                       request current_user w = (Ok r2, wb)
         /\ featured_image (blog r2) = featured_image (blog response)
         /\ additional_images (blog r2) = []
         /\ same_but_images r2).
Proof.
  intros H same_but_images. subst same_but_images. unfold generate_blog, generate_blog_body, generate_blog_except in *.
  minv_step. minv_step. minv_step.
  2:{ destruct (is_HTTPException e0); minv. }
  minv.
  unfold BlogContent_new in *.
  unfold get_blogs_collection, get_mongo_db, get_mongo_client, blogs_insert_one,
    log_user_action, get_history_collection, history_insert_one, get_mongo_db,
    get_mongo_client, driver_call in *.
  split.
  - match goal with
    | D : fetch_images_step _ ?kd ?W = _ |- _ =>
        destruct (fetch_images_step_first_call_raises env e d kd W)
          as (w5' & E & S5 & M5 & N5);
        apply fetch_images_step_frame in D as (S5o & M5o & N5o)
    end.
    minv; wsimpl; try rewrite M5o in *; finish_degraded_run M5.
  - match goal with
    | D : fetch_images_step _ ?kd ?W = _ |- _ =>
        destruct (fetch_images_step_second_call_raises env e d kd W _ _ D)
          as (w5' & E & S5 & M5 & N5);
        apply fetch_images_step_frame in D as (S5o & M5o & N5o)
    end.
    minv; wsimpl; try rewrite M5o in *; finish_degraded_run M5.
Qed.

Lemma image_failure_degrades_witness :
  exists r2 wb,
    generate_blog
      (with_stages (section_images_raise (PyException "Timeout" "unsplash") 30000
                                         (stages Demo.demo_env)) Demo.demo_env)
      Demo.demo_request Demo.alice_identity Demo.w0 = (Ok r2, wb)
    /\ featured_image (blog r2) = Some (mkImageData "img0")
    /\ additional_images (blog r2) = [].
Proof.
  assert (H : exists r w,
             generate_blog Demo.demo_env Demo.demo_request Demo.alice_identity Demo.w0
             = (Ok r, w)) by (eexists; eexists; vm_compute; reflexivity).
  destruct H as (r & w & H).
  destruct (proj2 (image_failure_degrades Demo.demo_env Demo.demo_request
                     Demo.alice_identity Demo.w0 r w
                     (PyException "Timeout" "unsplash") 30000 H))
    as (r2 & wb & E & F & A & _).
  exists r2, wb. split; [exact E |]. split; [| exact A].
  rewrite F. vm_compute in H. injection H as <- _. reflexivity.
Defined.

(** C8 (as stated) fails.  The image fetcher finds the featured image and
    then raises while fetching the section images: the run answers 200 with
    no additional images, and with the featured image. *)
Lemma partial_image_failure_keeps_featured_image :
  exists response w1,
    generate_blog
      (Demo.mk_env Demo.demo_settings Demo.quiet_driver Demo.stages_second_fetch_fails)
      Demo.demo_request Demo.alice_identity Demo.w0 = (Ok response, w1)
    /\ outcome (fetch_images Demo.stages_second_fetch_fails ["rocq"; "proof"] 3)
       = Raise (PyException "ConnectionError" "unsplash timeout")
    /\ additional_images (blog response) = []
    /\ featured_image (blog response) = Some (mkImageData "img0")
    /\ featured_image (blog response) <> None.
Proof.
  eexists. eexists. split; [vm_compute; reflexivity |].
  vm_compute. repeat split; congruence.
Qed.

(** ** Registration *)

Lemma find_has_email l email d :
  In d l -> has_email email d = true ->
  truthy_doc (List.find (has_email email) l) = true.
Proof.
  intros Hin Hd.
  destruct (List.find (has_email email) l) as [d'|] eqn:F.
  - apply find_some in F as [_ F]. unfold truthy_doc.
    destruct (bool_decide (d' = ∅)) eqn:B; [| reflexivity].
    apply bool_decide_eq_true_1 in B. subst d'.
    unfold has_email in F. rewrite lookup_empty in F. discriminate.
  - apply find_none with (x := d) in F; [congruence | exact Hin].
Qed.

Lemma get_mongo_client_connected env w :
  truthy (mongodb_uri (settings env)) = true ->
  exists w', get_mongo_client env w = (Ok tt, w')
             /\ store w' = store w /\ clock w' = clock w
             /\ next_oid w' = next_oid w.
Proof.
  intros U. unfold get_mongo_client. rewrite U. cbn [negb].
  destruct (mongo_client w); eexists; (split; [reflexivity | wsimpl; auto]).
Qed.

(** C3 (as amended).  When the store answers the look-up and a user record
    with the e-mail exists, [register] raises the 400 "Email already
    registered" error and writes nothing.  When the look-up finds no such
    record and the insert raises [e] — a duplicate-key error reported after
    a concurrent registration included — [register] raises [e] itself: it is
    not turned into the "Email already registered" error, and the client
    receives the generic 500 answer unless [e] is an [HTTPException]. *)
Theorem register_conflict_only_from_the_pre_check env user_data w :
  truthy (mongodb_uri (settings env)) = true ->
  fault (driver env) Users FindOne = None ->
  ((exists d, In d (users w) /\ has_email (uc_email user_data) d = true) ->
   exists w',
     register env user_data w
     = (Raise (HTTPException 400 "Email already registered"), w')
     /\ store w' = store w)
  /\ (forall e,
         List.find (has_email (uc_email user_data)) (users w) = None ->
         fault (driver env) Users InsertOne = Some e ->
         exists w',
           register env user_data w = (Raise e, w')
           /\ store w' = store w
           /\ (is_HTTPException e = false ->
               respond (A := UserResponse) (Raise e)
               = (500, inr (mkErrorResponse false "Internal server error" (str_exn e))))).
Proof.
  intros U F.
  destruct (get_mongo_client_connected env w U) as (wc & C & Sc & Kc & Nc).
  injection Sc as Su Sh Sb.
  split.
  - intros (d & Hin & Hd).
    pose proof (find_has_email _ _ _ Hin Hd) as T. rewrite <- Su in T.
    unfold register, create_user, get_users_collection, get_mongo_db,
      users_find_one, driver_call.
    unfold_monad. mrun.
    eexists. split; [reflexivity |]. unfold store. wsimpl. congruence.
  - intros e N I. rewrite <- Su in N.
    unfold register, create_user, get_users_collection, get_mongo_db,
      users_find_one, users_insert_one, hash_password, driver_call.
    unfold_monad. mrun. rewrite N. cbn [truthy_doc]. mrun.
    eexists. split; [reflexivity |]. split.
    + unfold store. wsimpl. congruence.
    + intros NH. destruct e; try discriminate NH; reflexivity.
Qed.

Lemma register_conflict_only_from_the_pre_check_witness :
  exists w',
    register (with_driver Demo.racing_driver Demo.demo_env) Demo.alice Demo.w0
    = (Raise (DuplicateKeyError
                "E11000 duplicate key error collection: blog_generator.users"), w')
    /\ store w' = store Demo.w0.
Proof.
  destruct (proj2 (register_conflict_only_from_the_pre_check
                     (with_driver Demo.racing_driver Demo.demo_env)
                     Demo.alice Demo.w0 eq_refl eq_refl)
                  (DuplicateKeyError
                     "E11000 duplicate key error collection: blog_generator.users")
                  eq_refl eq_refl)
    as (w' & E & S & _).
  exists w'. auto.
Defined.

(** C3 (as stated) fails.  The look-up finds no record for the e-mail, the
    insert reports a duplicate key: [register] raises that error, which is
    not the "Email already registered" error, and the client receives the
    generic 500 answer. *)
Lemma duplicate_key_at_insert_is_not_conflict :
  let env := with_driver Demo.racing_driver Demo.demo_env in
  let dup := DuplicateKeyError
               "E11000 duplicate key error collection: blog_generator.users" in
  List.find (has_email "alice@example.com") (users Demo.w0) = None
  /\ fst (register env Demo.alice Demo.w0) = Raise dup
  /\ fst (register env Demo.alice Demo.w0)
     <> Raise (HTTPException 400 "Email already registered")
  /\ respond (fst (register env Demo.alice Demo.w0))
     = (500, inr (mkErrorResponse false "Internal server error"
                    "E11000 duplicate key error collection: blog_generator.users")).
Proof. vm_compute. repeat split; congruence. Qed.

(** Registering the same e-mail twice: the second call is answered with
    the 400 error, and one user document is stored. *)
Example register_twice :
  let second := bind (register Demo.demo_env Demo.alice)
                     (fun _ => register Demo.demo_env Demo.alice) Demo.w0 in
  fst second = Raise (HTTPException 400 "Email already registered")
  /\ length (users (snd second)) = 1%nat.
Proof. vm_compute. split; reflexivity. Qed.

(** ** Token verification *)

Lemma jwt_decode_raises_JWTError t key algs now e :
  jwt_decode t key algs now = Raise e -> is_JWTError e = true.
Proof.
  unfold jwt_decode. destruct t; [intros H; injection H as <-; reflexivity |].
  repeat match goal with
  | |- context [if ?b then _ else _] => destruct b
  end; intros H; try discriminate; injection H as <-; reflexivity.
Qed.

(** Every failure of the decoding step is answered with [None]: a malformed
    text, a disallowed algorithm, a signature that does not verify, an
    expired token, a [sub] that is not a string. *)
Lemma verify_token_decode_failure env t w e :
  jwt_decode t (jwt_secret_key (settings env)) [jwt_algorithm (settings env)]
             (clock w / 1000000) = Raise e ->
  verify_token env t w
  = (Ok None, log_line WARNING ("JWT verification failed: " ++ str_exn e) w).
Proof.
  intros H. pose proof (jwt_decode_raises_JWTError _ _ _ _ _ H) as J.
  unfold verify_token. unfold_monad. mrun. reflexivity.
Qed.

(** A payload that carries [exp] and lacks [sub] or [email] is answered
    with [None]. *)
Lemma verify_token_missing_identity env t w claims exp :
  jwt_decode t (jwt_secret_key (settings env)) [jwt_algorithm (settings env)]
             (clock w / 1000000) = Ok claims ->
  c_exp claims = Some exp ->
  c_sub claims = None \/ c_email claims = None ->
  verify_token env t w = (Ok None, w).
Proof.
  intros H E [N | N]; unfold verify_token; unfold_monad; mrun;
    rewrite E, N; cbn [fromtimestamp payload_get is_None orb];
    [| destruct (is_None (payload_get (c_sub claims)))]; reflexivity.
Qed.

(** A payload that lacks [exp] makes [verify_token] raise: the [TypeError]
    of [datetime.fromtimestamp(None)] is not a [JWTError]. *)
Lemma verify_token_missing_exp env t w claims :
  jwt_decode t (jwt_secret_key (settings env)) [jwt_algorithm (settings env)]
             (clock w / 1000000) = Ok claims ->
  c_exp claims = None ->
  verify_token env t w
  = (Raise (TypeError "'NoneType' object cannot be interpreted as an integer"), w).
Proof.
  intros H E. unfold verify_token. unfold_monad. mrun. rewrite E.
  reflexivity.
Qed.

(** C4, at the failing input.  A token signed with the application's key
    whose payload has [sub] and [email] and no [exp]: [verify_token] raises
    a [TypeError] instead of returning [None]; the dependency
    [get_current_user] lets it through, and the client receives the generic
    500 answer instead of the 401 that every other invalid token gets. *)
Theorem verify_token_raises_on_token_without_exp :
  fst (verify_token Demo.demo_env Demo.no_exp_token Demo.w0)
  = Raise (TypeError "'NoneType' object cannot be interpreted as an integer")
  /\ fst (protected Demo.demo_env (Some "Bearer noexp.jwt")
                    get_me Demo.w0)
     = Raise (TypeError "'NoneType' object cannot be interpreted as an integer")
  /\ fst (respond (fst (protected Demo.demo_env (Some "Bearer noexp.jwt")
                                  get_me Demo.w0))) = 500
  /\ fst (protected Demo.demo_env (Some "Bearer garbage")
                    get_me Demo.w0)
     = Raise (HTTPException 401 "Could not validate credentials").
Proof. vm_compute. repeat split; reflexivity. Qed.

(** ** The bearer scheme *)







(** Headers the scheme rejects, in the releases of the framework that
    answer 403: none, a scheme alone, another scheme.  A Bearer header with
    a text that is no token passes the scheme and is rejected with 401 by
    [get_current_user]. *)
Example bearer_rejections :
  fst (protected Demo.demo_env None get_me Demo.w0)
  = Raise (HTTPException 403 "Not authenticated")
  /\ fst (protected Demo.demo_env (Some "Bearer") get_me Demo.w0)
     = Raise (HTTPException 403 "Not authenticated")
  /\ fst (protected Demo.demo_env (Some "Basic alice.jwt") get_me Demo.w0)
     = Raise (HTTPException 403 "Invalid authentication credentials")
  /\ fst (protected Demo.demo_env (Some "bearer alice.jwt") get_me Demo.w0)
     = Ok Demo.alice_identity
  /\ fst (protected Demo.demo_env (Some "Bearer x.y.z") get_me Demo.w0)
     = Raise (HTTPException 401 "Could not validate credentials").
Proof. vm_compute. repeat split; reflexivity. Qed.

Lemma partition_space_scheme sch cred t :
  lower sch = t -> (forall a b, t <> a ++ " " ++ b) ->
  partition_space (sch ++ " " ++ cred) = (sch, cred).
Proof.
  revert t. induction sch as [| c r IH]; intros t L N.
  - reflexivity.
  - change (String c r ++ " " ++ cred) with (String c (r ++ " " ++ cred)).
    cbn [partition_space].
    destruct (Ascii.eqb c " ") eqn:E.
    + apply Ascii.eqb_eq in E. subst c. exfalso.
      apply (N "" (lower r)). rewrite <- L. reflexivity.
    + rewrite (IH (lower r) eq_refl); [reflexivity |].
      intros a b Hr. apply (N (String (lower_ascii c) a) b).
      rewrite <- L. cbn. rewrite Hr. reflexivity.
Qed.

Lemma bearer_has_no_space a b : "bearer" <> a ++ " " ++ b.
Proof.
  do 6 (destruct a as [| ? a]; [discriminate |]; cbn; intros H; injection H as _ H;
        revert H).
  destruct a; discriminate.
Qed.

(** Conversely, a well-formed header passes the scheme: the rejected
    headers are exactly the ones that are absent or not well formed. *)
Lemma HTTPBearer_call_accepts env h :
  well_formed_bearer h ->
  exists sch cred,
    h = sch ++ " " ++ cred
    /\ HTTPBearer_call env (Some h) = Ok (mkCredentials sch (token_of_text env cred)).
Proof.
  intros (sch & cred & -> & L & C). exists sch, cred. split; [reflexivity |].
  unfold HTTPBearer_call, get_authorization_scheme_param, truthy_header.
  assert (Th : truthy (sch ++ " " ++ cred) = true) by (destruct sch; reflexivity).
  rewrite Th.
  rewrite (partition_space_scheme sch cred "bearer" L bearer_has_no_space).
  assert (Ts : truthy sch = true) by (destruct sch; [discriminate L | reflexivity]).
  assert (Tc : truthy cred = true) by (destruct cred; [congruence | reflexivity]).
  rewrite Ts, Tc, L. reflexivity.
Qed.

(** ** Retrieval of an artifact *)

Lemma find_owned_only current_user oid l :
  List.find (fun d => String.eqb (b_id d) oid
                      && String.eqb (b_user_id d) (td_user_id current_user))
            (List.filter (owned_by current_user) l)
  = List.find (fun d => String.eqb (b_id d) oid
                        && String.eqb (b_user_id d) (td_user_id current_user)) l.
Proof.
  induction l as [| d l IH]; [reflexivity |].
  cbn [List.filter List.find]. unfold owned_by at 1.
  destruct (String.eqb (b_user_id d) (td_user_id current_user)) eqn:U.
  - cbn [List.find]. rewrite U, IH. reflexivity.
  - rewrite andb_false_r. exact IH.
Qed.

Lemma find_foreign_or_absent current_user oid l :
  (forall d, In d l -> b_id d = oid -> b_user_id d <> td_user_id current_user) ->
  List.find (fun d => String.eqb (b_id d) oid
                      && String.eqb (b_user_id d) (td_user_id current_user)) l
  = None.
Proof.
  intros H.
  destruct (List.find _ l) as [d |] eqn:F; [| reflexivity].
  apply find_some in F as [Hin Hd].
  apply andb_prop in Hd as [Hi Hu].
  apply String.eqb_eq in Hi. apply String.eqb_eq in Hu.
  exfalso. exact (H d Hin Hi Hu).
Qed.

(** C7 (as amended).  [get_blog] answers 400 "Invalid blog ID" when
    [bson.ObjectId] rejects the identifier: when it is not a text of 24
    characters that [bytes.fromhex] reads.  With an identifier that is
    accepted and a store that answers, it answers 404 "Blog not found"
    whenever no artifact with that identifier belongs to the caller, whether
    there is none at all or it belongs to someone else.  Its answer is the
    one it would give if the collection held the caller's artifacts only:
    what others own cannot be told from what does not exist, and is never
    returned. *)
Theorem get_blog_hides_foreign_artifacts env blog_id current_user w :
  (forall e, ObjectId_new blog_id = Raise e ->
     get_blog env blog_id current_user w
     = (Raise (HTTPException 400 "Invalid blog ID"), w)
     /\ fst (respond (fst (get_blog env blog_id current_user w))) = 400)
  /\ (forall oid,
         ObjectId_new blog_id = Ok oid ->
         mongo_client w = true \/ truthy (mongodb_uri (settings env)) = true ->
         fault (driver env) Blogs FindOne = None ->
         (forall d, In d (blogs w) -> b_id d = oid ->
                    b_user_id d <> td_user_id current_user) ->
         exists w',
           get_blog env blog_id current_user w
           = (Raise (HTTPException 404 "Blog not found"), w')
           /\ store w' = store w
           /\ fst (respond (fst (get_blog env blog_id current_user w))) = 404)
  /\ fst (get_blog env blog_id current_user w)
     = fst (get_blog env blog_id current_user
              (set_blogs (List.filter (owned_by current_user)) w)).
Proof.
  split; [| split].
  - intros e H. unfold get_blog. unfold_monad. rewrite H. cbn [any_exception].
    split; reflexivity.
  - intros oid H C F N.
    pose proof (find_foreign_or_absent _ _ _ N) as Fd.
    unfold get_blog, get_blogs_collection, get_mongo_db, get_mongo_client,
      blogs_find_one, driver_call.
    unfold_monad. rewrite H.
    destruct (mongo_client w) eqn:Mc.
    + mrun. eexists. split; [reflexivity |]. split; reflexivity.
    + destruct C as [C | C]; [discriminate |].
      mrun. eexists. split; [reflexivity |]. split; reflexivity.
  - unfold get_blog, get_blogs_collection, get_mongo_db, get_mongo_client,
      blogs_find_one, driver_call.
    unfold_monad.
    repeat (wsimpl; cbn [negb any_exception]; rewrite ?find_owned_only;
            match goal with
            | |- context [match ?x with _ => _ end] =>
                lazymatch x with
                | context [match _ with _ => _ end] => fail
                | _ => destruct x
                end
            end);
      reflexivity.
Qed.

Lemma get_blog_hides_foreign_artifacts_witness :
  exists w',
    get_blog Demo.demo_env "000000000000000000000000" Demo.bob_identity
             Demo.w_after_alice
    = (Raise (HTTPException 404 "Blog not found"), w')
    /\ store w' = store Demo.w_after_alice
    /\ fst (respond (fst (get_blog Demo.demo_env "000000000000000000000000"
                                   Demo.bob_identity Demo.w_after_alice))) = 404.
Proof.
  apply (proj1 (proj2 (get_blog_hides_foreign_artifacts Demo.demo_env
                         "000000000000000000000000" Demo.bob_identity
                         Demo.w_after_alice))
               "000000000000000000000000").
  - vm_compute. reflexivity.
  - left. reflexivity.
  - reflexivity.
  - intros d Hin _. destruct Hin as [<- | []]. vm_compute. discriminate.
Defined.

Lemma hex_digit_is_no_space c : is_hex_digit c = true -> is_space c = false.
Proof.
  unfold is_hex_digit, is_space. intros A.
  destruct (N_of_ascii c =? 32)%N eqn:E32.
  - apply N.eqb_eq in E32. rewrite E32 in A. vm_compute in A. discriminate.
  - cbn [orb].
    destruct ((9 <=? N_of_ascii c)%N && (N_of_ascii c <=? 13)%N) eqn:S;
      [| reflexivity].
    apply andb_prop in S as [S1 S2]. apply N.leb_le in S2.
    repeat match type of A with
    | (_ || _) = true => apply orb_prop in A as [A | A]
    end; apply andb_prop in A as [A1 A2]; apply N.leb_le in A1; lia.
Qed.

Lemma fromhex_all_hex pairs : forall s,
  String.length s = (2 * pairs)%nat -> all_hex s = true ->
  fromhex s = Some (lower s).
Proof.
  induction pairs as [| k IH]; intros s L A.
  - destruct s; [reflexivity | discriminate].
  - destruct s as [| c [| d r]]; try (cbn in L; lia).
    cbn [all_hex] in A. apply andb_prop in A as [Ac A].
    apply andb_prop in A as [Ad A].
    cbn [fromhex lower]. rewrite (hex_digit_is_no_space c Ac), Ac, Ad.
    cbn [andb]. rewrite (IH r); [reflexivity | cbn in L; lia | exact A].
Qed.

(** Every well-formed identifier is accepted, and keeps its digits in
    lower case. *)
Lemma well_formed_id_accepted s :
  well_formed_id s = true -> ObjectId_new s = Ok (lower s).
Proof.
  unfold well_formed_id, ObjectId_new. intros H.
  apply andb_prop in H as [L A]. rewrite L.
  apply Nat.eqb_eq in L.
  rewrite (fromhex_all_hex 12 s L A). reflexivity.
Qed.

(** C7 (as stated) fails.  Eight pairs of digits, each followed by a
    blank, make a text of 24 characters that is no well-formed identifier;
    [bson.ObjectId] accepts it, the store is asked, and the answer is 404
    "Blog not found", not 400. *)
Lemma spaced_id_is_not_invalid_input :
  let blog_id := "00 00 00 00 00 00 00 00 " in
  well_formed_id blog_id = false
  /\ ObjectId_new blog_id = Ok "0000000000000000"
  /\ fst (get_blog Demo.demo_env blog_id Demo.alice_identity Demo.w_after_alice)
     = Raise (HTTPException 404 "Blog not found")
  /\ fst (respond (fst (get_blog Demo.demo_env blog_id Demo.alice_identity
                                 Demo.w_after_alice))) = 404.
Proof. vm_compute. repeat split; reflexivity. Qed.

(** The owner retrieves the artifact; another identity and an identifier
    that names nothing get the same answer. *)
Example get_blog_answers :
  fst (respond (fst (get_blog Demo.demo_env "000000000000000000000000"
                              Demo.alice_identity Demo.w_after_alice))) = 200
  /\ fst (get_blog Demo.demo_env "000000000000000000000000" Demo.bob_identity
                   Demo.w_after_alice)
     = fst (get_blog Demo.demo_env "00000000000000000000ffff" Demo.bob_identity
                     Demo.w_after_alice)
  /\ fst (get_blog Demo.demo_env "not-an-id" Demo.bob_identity Demo.w_after_alice)
     = Raise (HTTPException 400 "Invalid blog ID").
Proof. vm_compute. repeat split; reflexivity. Qed.

(** ** Logout and the validity of tokens *)

Lemma pyval_eqb_refl v : pyval_eqb v v = true.
Proof.
  destruct v; cbn; auto using String.eqb_refl, Z.eqb_refl.
Qed.

Lemma Claims_eqb_refl c : Claims_eqb c c = true.
Proof.
  unfold Claims_eqb.
  destruct c as [[s |] [m |] [x |]]; cbn;
    rewrite ?pyval_eqb_refl, ?Z.eqb_refl; reflexivity.
Qed.

(** The outcome of [verify_token] depends on the state through the current
    second only. *)
Lemma verify_token_reads_only_the_clock env t w1 w2 :
  clock w1 / 1000000 = clock w2 / 1000000 ->
  fst (verify_token env t w1) = fst (verify_token env t w2).
Proof.
  intros H. unfold verify_token. unfold_monad. rewrite H.
  repeat match goal with
  | |- context [match ?x with _ => _ end] =>
      lazymatch x with
      | context [match _ with _ => _ end] => fail
      | _ => destruct x; cbn [fst is_JWTError]
      end
  end;
  reflexivity.
Qed.

Lemma create_access_token_Ok_inv env uid email delta w t w2 :
  create_access_token env (VStr uid) (VStr email) delta w = (Ok t, w2) ->
  let claims :=
    mkClaims (Some (VStr uid)) (Some (VStr email))
      (Some ((clock w + default (jwt_expiry_minutes (settings env) * 60000000) delta)
             / 1000000)) in
  t = Compact (jwt_algorithm (settings env)) claims
        (mkSignature (jwt_secret_key (settings env))
                     (jwt_algorithm (settings env)) claims).
Proof.
  unfold create_access_token, jwt_encode. intros H. minv.
  cbn in *. minv. destruct delta; reflexivity.
Qed.

(** A token the application issued verifies as long as its [exp] is not in
    the past. *)
Lemma verify_issued_token env uid email delta w0 t wi w :
  create_access_token env (VStr uid) (VStr email) delta w0 = (Ok t, wi) ->
  let exp :=
    (clock w0 + default (jwt_expiry_minutes (settings env) * 60000000) delta)
    / 1000000 in
  clock w / 1000000 <= exp ->
  verify_token env t w = (Ok (Some (mkTokenData uid email exp)), w).
Proof.
  intros H exp Hle. apply create_access_token_Ok_inv in H. subst t.
  unfold verify_token, jwt_decode. unfold_monad.
  cbn [existsb]. rewrite !String.eqb_refl, Claims_eqb_refl.
  cbn [orb negb andb c_exp c_sub c_email expired sub_is_text].
  fold exp. destruct (Z.ltb_spec exp (clock w / 1000000)); [lia |].
  reflexivity.
Qed.

(** What [logout] does to the state: at most one audit entry is appended. *)
Lemma logout_effect env current_user w r w' :
  logout env current_user w = (r, w') ->
  users w' = users w /\ blogs w' = blogs w
  /\ match r with
     | Ok _ =>
         history w'
         = (history w ++ [mkHistoryDoc (VStr (td_user_id current_user))
                                       "logout" [] (bson_millis (clock w))])%list
     | Raise _ => history w' = history w
     end.
Proof.
  intros H.
  unfold logout, log_user_action, get_history_collection, get_mongo_db,
    get_mongo_client, history_insert_one, driver_call in H.
  unfold call, bind, try_except, tick, lift_res, ret, raise, time_time, utcnow,
    logger in H.
  repeat match type of H with
  | context [match ?x with _ => _ end] =>
      lazymatch x with
      | context [match _ with _ => _ end] => fail
      | _ => destruct x; cbn [negb] in H
      end
  end;
  injection H as Hr Hw; subst r w'; wsimpl; auto.
Qed.

(** C9.  Take a token the application issued and any call of [logout].
    In the state the call leaves: the token verifies, with the identity it
    was issued for, as long as it has not expired; every token verifies or
    fails exactly as it would if the same time had passed without the
    logout; the users and the artifacts are untouched, and the audit trail
    has gained the logout entry and nothing else (nothing at all when the
    audit write raised). *)
Theorem logout_does_not_revoke
  env uid email delta w0 t wi current_user w r w' :
  create_access_token env (VStr uid) (VStr email) delta w0 = (Ok t, wi) ->
  logout env current_user w = (r, w') ->
  let exp :=
    (clock w0 + default (jwt_expiry_minutes (settings env) * 60000000) delta)
    / 1000000 in
  (clock w' / 1000000 <= exp ->
   verify_token env t w' = (Ok (Some (mkTokenData uid email exp)), w'))
  /\ (forall t0,
         fst (verify_token env t0 w')
         = fst (verify_token env t0 (advance (clock w' - clock w) w)))
  /\ users w' = users w /\ blogs w' = blogs w
  /\ match r with
     | Ok _ =>
         history w'
         = (history w ++ [mkHistoryDoc (VStr (td_user_id current_user))
                                       "logout" [] (bson_millis (clock w))])%list
     | Raise _ => history w' = history w
     end.
Proof.
  intros Hissue Hlogout exp. split; [| split].
  - intros Hle. exact (verify_issued_token _ _ _ _ _ _ _ _ Hissue Hle).
  - intros t0. apply verify_token_reads_only_the_clock. wsimpl.
    f_equal. lia.
  - exact (logout_effect _ _ _ _ _ Hlogout).
Qed.

Lemma logout_does_not_revoke_witness :
  let w' := snd (logout Demo.demo_env Demo.alice_identity Demo.w0) in
  verify_token Demo.demo_env Demo.alice_token w'
  = (Ok (Some Demo.alice_identity), w').
Proof.
  intros w'.
  refine (proj1 (logout_does_not_revoke Demo.demo_env
                   "000000000000000000000000" "alice@example.com" None Demo.w0
                   Demo.alice_token Demo.w0 Demo.alice_identity Demo.w0
                   (Ok "Logged out successfully") w' _ _) _).
  - vm_compute. reflexivity.
  - vm_compute. reflexivity.
  - vm_compute. discriminate.
Defined.

(** Register, log in, log out, and present the token again: it is still
    accepted. *)
Example token_survives_logout :
  let session :=
    _ <~ register Demo.demo_env Demo.alice ;;
    tok <~ login Demo.demo_env (mkUserLogin "alice@example.com" "pw1") ;;
    id <~ get_current_user Demo.demo_env (mkCredentials "Bearer" (access_token tok)) ;;
    _ <~ logout Demo.demo_env id ;;
    get_current_user Demo.demo_env (mkCredentials "Bearer" (access_token tok)) in
  fst (session Demo.w0) = Ok Demo.alice_identity.
Proof. vm_compute. reflexivity. Qed.

(** ** The user dictionaries *)

Lemma public_dictionary_fields (id email name created_at : pyval) :
  let user : gmap string pyval :=
    <["id" := id]> (<["email" := email]> (<["name" := name]>
      (<["created_at" := created_at]> ∅))) in
  dom user = public_user_fields /\ user !! "password_hash" = None.
Proof.
  cbn zeta. split.
  - rewrite !dom_insert_L, dom_empty_L. unfold public_user_fields. set_solver.
  - by simplify_map_eq.
Qed.

(** The dictionary [authenticate_user] returns is built from four fields of
    the stored document. *)
Lemma authenticate_user_Ok_inv env email password w user w2 :
  authenticate_user env email password w = (Ok (Some user), w2) ->
  exists d id em created_at,
    In d (users w)
    /\ d !! "_id" = Some id /\ d !! "email" = Some em
    /\ d !! "created_at" = Some created_at
    /\ user = <["id" := VStr (py_str id)]> (<["email" := em]>
              (<["name" := dict_get d "name"]> (<["created_at" := created_at]> ∅))).
Proof.
  unfold authenticate_user, subscript. intros H. minv.
  all: repeat match goal with
  | D : users_find_one _ _ _ = _ |- _ =>
      apply users_find_one_Ok_inv in D as (? & Hf & ->)
  | D : get_users_collection _ _ = _ |- _ =>
      apply get_users_collection_Ok_inv in D as (Hs & _);
      injection Hs as Hu _ _
  | D : match ?x with _ => _ end = Ok _ |- _ =>
      destruct x eqn:?; [injection D as <- | discriminate D]
  | D : None = Some _ |- _ => discriminate D
  | D : Some _ = Some _ |- _ => injection D as <-
  end.
  symmetry in Hf. rewrite Hu in Hf. apply find_some in Hf as [Hin _].
  eauto 10.
Qed.


Lemma subscript_insert (d : gmap string pyval) k v :
  subscript (<[k := v]> d) k = Ok v.
Proof. unfold subscript. by rewrite lookup_insert_eq. Qed.

Lemma subscript_insert_ne (d : gmap string pyval) k k' v :
  k' <> k -> subscript (<[k' := v]> d) k = subscript d k.
Proof. intros N. unfold subscript. by rewrite lookup_insert_ne. Qed.

Ltac subscripts :=
  repeat (rewrite subscript_insert in *
          || rewrite subscript_insert_ne in * by discriminate);
  repeat match goal with
  | H : Ok _ = Ok _ |- _ => injection H; clear H; intros; subst
  end.
(** The password reaches the stored document only: with another password
    [create_user] returns the same dictionary and leaves a state that
    differs in that document alone. *)
Lemma create_user_same_state env user_data w user w2 password' :
  create_user env user_data w = (Ok user, w2) ->
  exists w3,
    create_user env (mkUserCreate (uc_email user_data) password' (uc_name user_data)) w
    = (Ok user, w3)
    /\ history w3 = history w2 /\ blogs w3 = blogs w2
    /\ mongo_client w3 = mongo_client w2 /\ next_oid w3 = next_oid w2
    /\ clock w3 = clock w2 /\ logs w3 = logs w2.
Proof.
  intros H.
  unfold create_user, hash_password, users_insert_one, users_find_one,
    get_users_collection, get_mongo_db, get_mongo_client, driver_call in *.
  minv.
  all: unfold_monad; cbn [uc_email uc_password uc_name]; mrun; subscripts;
    cbn [py_str]; (eexists; split; [reflexivity | wsimpl; auto 10]).
Qed.

Lemma create_user_ignores_password env user_data w user w2 password' :
  create_user env user_data w = (Ok user, w2) ->
  fst (create_user env (mkUserCreate (uc_email user_data) password'
                                     (uc_name user_data)) w)
  = Ok user.
Proof.
  intros H.
  destruct (create_user_same_state _ _ _ _ _ password' H) as (w3 & E & _).
  rewrite E. reflexivity.
Qed.

(** Whether an audit write succeeds does not depend on the collections. *)
Lemma log_user_action_elsewhere env uid action data w r w2 w3 :
  log_user_action env uid action data w = (Ok r, w2) ->
  mongo_client w3 = mongo_client w ->
  exists w4, log_user_action env uid action data w3 = (Ok r, w4).
Proof.
  unfold log_user_action, history_insert_one, get_history_collection,
    get_mongo_db, get_mongo_client, driver_call.
  intros H Hm. minv; unfold_monad; rewrite Hm; mrun;
    (eexists; reflexivity).
Qed.

(** C10.  The dictionary a successful [create_user] or [authenticate_user]
    returns has exactly the keys [id], [email], [name] and [created_at]; it
    has no [password_hash].  What [create_user] and [register] return does
    not depend on the password that was submitted, and the dictionary of
    [authenticate_user] is built from the [_id], [email], [name] and
    [created_at] of the stored document. *)
Theorem user_values_carry_no_credential env :
  (forall user_data w user w2,
      create_user env user_data w = (Ok user, w2) ->
      dom user = public_user_fields
      /\ user !! "password_hash" = None
      /\ forall password',
           fst (create_user env (mkUserCreate (uc_email user_data) password'
                                              (uc_name user_data)) w)
           = Ok user)
  /\ (forall email password w user w2,
         authenticate_user env email password w = (Ok (Some user), w2) ->
         dom user = public_user_fields
         /\ user !! "password_hash" = None
         /\ exists d id em created_at,
              In d (users w)
              /\ d !! "_id" = Some id /\ d !! "email" = Some em
              /\ d !! "created_at" = Some created_at
              /\ user = <["id" := VStr (py_str id)]> (<["email" := em]>
                        (<["name" := dict_get d "name"]>
                        (<["created_at" := created_at]> ∅))))
  /\ (forall user_data w r w2,
         register env user_data w = (Ok r, w2) ->
         forall password',
           fst (register env (mkUserCreate (uc_email user_data) password'
                                           (uc_name user_data)) w)
           = Ok r).
Proof.
  split; [| split].
  - intros user_data w user w2 H.
    pose proof (create_user_Ok_inv _ _ _ _ _ H) as (-> & _).
    destruct (public_dictionary_fields
                (VStr (mk_oid (next_oid w))) (VStr (uc_email user_data))
                (of_option_str (uc_name user_data))
                (VDatetime (clock w + latency (driver env) Users FindOne)))
      as [D P].
    split; [exact D |]. split; [exact P |].
    intros password'.
    clear D P. revert H. apply create_user_ignores_password.
  - intros email password w user w2 H.
    destruct (authenticate_user_Ok_inv _ _ _ _ _ _ H)
      as (d & id & em & c & Hin & Hi & He & Hc & ->).
    destruct (public_dictionary_fields (VStr (py_str id)) em (dict_get d "name") c)
      as [D P].
    split; [exact D |]. split; [exact P |]. eauto 10.
  - intros user_data w r w2 H password'.
    unfold register in *. cbn [uc_email uc_password uc_name].
    minv.
    match goal with
    | D : create_user _ _ _ = (Ok _, _) |- _ =>
        apply create_user_same_state with (password' := password') in D
          as (w3 & E & _ & _ & Hm & _)
    end.
    dedup.
    match goal with
    | D : log_user_action _ _ _ _ _ = (Ok _, _) |- _ =>
        destruct (log_user_action_elsewhere _ _ _ _ _ _ _ w3 D Hm) as (w4 & L)
    end.
    unfold_monad. mrun. cbn [fst]. assumption.
Qed.

Lemma user_values_carry_no_credential_witness :
  exists user,
    fst (create_user Demo.demo_env Demo.alice Demo.w0) = Ok user
    /\ dom user = public_user_fields
    /\ user !! "password_hash" = None.
Proof.
  assert (H : exists user w2,
             create_user Demo.demo_env Demo.alice Demo.w0 = (Ok user, w2))
    by (eexists; eexists; vm_compute; reflexivity).
  destruct H as (user & w2 & H).
  destruct (proj1 (user_values_carry_no_credential Demo.demo_env)
                  Demo.alice Demo.w0 user w2 H) as (D & P & _).
  exists user. rewrite H. auto.
Defined.

(** The stored document does hold the credential, as submitted; the
    dictionary handed back does not. *)
Example stored_document_and_returned_dictionary :
  let r := create_user Demo.demo_env Demo.alice Demo.w0 in
  List.map (fun d : gmap string pyval => d !! "password_hash") (users (snd r))
  = [Some (VStr "pw1")]
  /\ match fst r with
     | Ok user => user !! "password_hash" = None /\ size user = 4%nat
     | Raise _ => False
     end.
Proof. vm_compute. repeat split; reflexivity. Qed.

(** * Further properties of the embedded code *)

(** ** More about running the monad *)

Lemma bind_inv {A B} (c : M A) (k : A -> M B) w r w2 :
  bind c k w = (r, w2) ->
  (exists e, c w = (Raise e, w2) /\ r = Raise e)
  \/ exists a w1, c w = (Ok a, w1) /\ k a w1 = (r, w2).
Proof.
  unfold bind. destruct (c w) as [[a | e] w1]; intros H.
  - right. exists a, w1. auto.
  - injection H as <- <-. left. exists e. auto.
Qed.

Lemma pyval_eqb_eq a b : pyval_eqb a b = true -> a = b.
Proof.
  destruct a, b; cbn; intros H; try discriminate; try reflexivity;
    f_equal; first [apply String.eqb_eq | apply Z.eqb_eq]; exact H.
Qed.

Lemma find_app_none {A} (f : A -> bool) l l' :
  List.find f l = None -> List.find f (l ++ l')%list = List.find f l'.
Proof.
  induction l as [| x l IH]; cbn; [reflexivity |].
  destruct (f x); [discriminate | exact IH].
Qed.

Lemma find_email_not_truthy email l :
  truthy_doc (List.find (has_email email) l) = false ->
  List.find (has_email email) l = None.
Proof.
  intros T.
  destruct (List.find (has_email email) l) as [d |] eqn:F; [| reflexivity].
  pose proof F as F'. apply find_some in F' as [Hin Hd].
  pose proof (find_has_email _ _ _ Hin Hd) as X. rewrite F in X. congruence.
Qed.

(** ** What a successful registration leaves behind *)

Lemma register_Ok_inv env user_data w r w1 :
  register env user_data w = (Ok r, w1) ->
  let created := clock w + latency (driver env) Users FindOne in
  let updated := created + Z.of_N (utcnow_gap (interpreter env)) in
  let id := mk_oid (next_oid w) in
  r = mkUserResponse id (uc_email user_data) (uc_name user_data) created
  /\ List.find (has_email (uc_email user_data)) (users w) = None
  /\ users w1
     = (users w ++
        [<["_id" := VObjectId id]>
         (<["email" := VStr (uc_email user_data)]>
         (<["password_hash" := VStr (uc_password user_data)]>
         (<["name" := of_option_str (uc_name user_data)]>
         (<["created_at" := VDatetime (bson_millis created)]>
         (<["updated_at" := VDatetime (bson_millis updated)]> ∅)))))])%list
  /\ history w1
     = (history w ++
        [mkHistoryDoc (VStr id) "register" []
           (bson_millis (updated + latency (driver env) Users InsertOne))])%list
  /\ blogs w1 = blogs w
  /\ mongo_client w1 = true
  /\ truthy (mongodb_uri (settings env)) = true
  /\ fault (driver env) Users FindOne = None.
Proof.
  intros H.
  unfold register, create_user, hash_password, users_insert_one, users_find_one,
    log_user_action, history_insert_one, get_users_collection,
    get_history_collection, get_mongo_db, get_mongo_client, driver_call in H.
  minv.
  all: subscripts; wsimpl.
  all: match goal with
       | T : truthy_doc _ = false |- _ => apply find_email_not_truthy in T
       end.
  all: match goal with
       | U : UserResponse_new _ _ _ _ = Ok _ |- _ =>
           unfold UserResponse_new, dict_get in U; simplify_map_eq;
           destruct (uc_name user_data); cbn in U; injection U as <-
       end.
  all: match goal with
       | U : negb (truthy _) = false |- _ => apply negb_false_iff in U
       end.
  all: rewrite ?fmap_insert, ?fmap_empty; cbn [to_bson py_str bson_history
         h_user_id h_action h_data h_timestamp];
       rewrite ?to_bson_of_option_str; repeat split; auto.
Qed.

(** X1.  Register, then authenticate with the same e-mail and password:
    the call succeeds and returns the dictionary of the user just created,
    with the id, the e-mail and the name that [register] answered, and with
    its [created_at] as the store keeps it, cut to the millisecond. *)
Theorem register_then_authenticate env user_data w r w1 :
  register env user_data w = (Ok r, w1) ->
  exists user w2,
    authenticate_user env (uc_email user_data) (uc_password user_data) w1
    = (Ok (Some user), w2)
    /\ user !! "id" = Some (VStr (ur_id r))
    /\ user !! "email" = Some (VStr (ur_email r))
    /\ user !! "name" = Some (of_option_str (ur_name r))
    /\ user !! "created_at" = Some (VDatetime (bson_millis (ur_created_at r))).
Proof.
  intros H.
  destruct (register_Ok_inv _ _ _ _ _ H) as (-> & Fn & Hu & _ & _ & Hm & _ & Ff).
  unfold authenticate_user, users_find_one, get_users_collection, get_mongo_db,
    get_mongo_client, driver_call.
  unfold_monad. mrun. rewrite Hu, (find_app_none _ _ _ Fn).
  cbn [List.find]. unfold has_email at 1. rewrite lookup_insert_ne by discriminate.
  rewrite lookup_insert_eq, pyval_eqb_refl.
  subscripts. unfold verify_password. rewrite pyval_eqb_refl. cbn [negb].
  unfold dict_get. rewrite !lookup_insert_ne by discriminate.
  rewrite lookup_insert_eq. cbn [py_str].
  eexists. eexists. split; [reflexivity |].
  cbn [ur_id ur_email ur_name ur_created_at].
  repeat split; by simplify_map_eq.
Qed.

Lemma register_then_authenticate_witness :
  exists user w2,
    authenticate_user Demo.demo_env "alice@example.com" "pw1"
      (snd (register Demo.demo_env Demo.alice Demo.w0))
    = (Ok (Some user), w2)
    /\ user !! "id" = Some (VStr "000000000000000000000000").
Proof.
  assert (H : exists r, register Demo.demo_env Demo.alice Demo.w0
                        = (Ok r, snd (register Demo.demo_env Demo.alice Demo.w0)))
    by (eexists; vm_compute; reflexivity).
  destruct H as (r & H).
  destruct (register_then_authenticate _ _ _ _ _ H) as (user & w2 & E & I & _).
  exists user, w2. split; [exact E |].
  rewrite I. vm_compute in H. injection H as <-. reflexivity.
Defined.

(** Registered at 1.234567 s, the user is returned by [register] with
    that [created_at], and by [authenticate_user] with 1.234 s. *)
Example created_at_read_back :
  let w := advance 1234567 Demo.w0 in
  let r := register Demo.demo_env Demo.alice w in
  match fst r with
  | Ok resp => ur_created_at resp = 1234567
  | Raise _ => False
  end
  /\ match fst (authenticate_user Demo.demo_env "alice@example.com" "pw1" (snd r)) with
     | Ok (Some user) => user !! "created_at" = Some (VDatetime 1234000)
     | _ => False
     end.
Proof. vm_compute. split; reflexivity. Qed.

(** X2.  An unknown e-mail and a wrong password are answered alike: the
    result of [login] and the state it leaves are the same for any two
    credentials that each fail for one of these reasons.  When the store
    answers, that result is the 401 "Invalid email or password" error, and
    nothing is written. *)
Theorem login_rejects_uniformly env c1 c2 w :
  let unknown_or_wrong (c : UserLogin) :=
    match List.find (has_email (ul_email c)) (users w) with
    | None => True
    | Some d =>
        exists stored, d !! "password_hash" = Some stored
                       /\ verify_password (ul_password c) stored = false
    end in
  unknown_or_wrong c1 -> unknown_or_wrong c2 ->
  login env c1 w = login env c2 w
  /\ (truthy (mongodb_uri (settings env)) = true ->
      fault (driver env) Users FindOne = None ->
      fst (login env c1 w) = Raise (HTTPException 401 "Invalid email or password")
      /\ store (snd (login env c1 w)) = store w).
Proof.
  intros unknown_or_wrong B1 B2. subst unknown_or_wrong. cbv beta in *.
  assert (L : forall c,
             match List.find (has_email (ul_email c)) (users w) with
             | None => True
             | Some d =>
                 exists stored, d !! "password_hash" = Some stored
                                /\ verify_password (ul_password c) stored = false
             end ->
             login env c w
             = (if negb (truthy (mongodb_uri (settings env)))
                then (Raise (HTTPException 503 "User authentication not available (database not configured)"), w)
                else
                  let w0 := if mongo_client w then w else set_mongo_client true w in
                  match fault (driver env) Users FindOne with
                  | Some e => (Raise e, advance (latency (driver env) Users FindOne) w0)
                  | None =>
                      (Raise (HTTPException 401 "Invalid email or password"),
                       advance (latency (driver env) Users FindOne) w0)
                  end)).
  { intros c B.
    unfold login, authenticate_user, users_find_one, get_users_collection,
      get_mongo_db, get_mongo_client, driver_call.
    unfold_monad.
    destruct (negb (truthy (mongodb_uri (settings env)))) eqn:U; [reflexivity |].
    cbn zeta.
    destruct (mongo_client w) eqn:Mc;
      (destruct (fault (driver env) Users FindOne); [reflexivity |]);
      wsimpl;
      (destruct (List.find (has_email (ul_email c)) (users w)) as [d |];
       [destruct B as (stored & Hs & Hv); unfold subscript; rewrite Hs, Hv |]);
      reflexivity. }
  split.
  - rewrite (L c1 B1), (L c2 B2). reflexivity.
  - intros U F. rewrite (L c1 B1), U, F. cbn [negb].
    destruct (mongo_client w); split; reflexivity.
Qed.

Lemma login_rejects_uniformly_witness :
  login Demo.demo_env (mkUserLogin "nobody@example.com" "pw1")
        (snd (register Demo.demo_env Demo.alice Demo.w0))
  = login Demo.demo_env (mkUserLogin "alice@example.com" "wrong")
          (snd (register Demo.demo_env Demo.alice Demo.w0)).
Proof.
  refine (proj1 (login_rejects_uniformly Demo.demo_env
                   (mkUserLogin "nobody@example.com" "pw1")
                   (mkUserLogin "alice@example.com" "wrong")
                   (snd (register Demo.demo_env Demo.alice Demo.w0)) _ _)).
  - vm_compute. exact I.
  - vm_compute. eexists. split; reflexivity.
Defined.

(** ** Tokens issued at login *)

(** A successful [authenticate_user]: the stored document it found, the
    dictionary it built from it, and the time it took. *)
Lemma authenticate_user_found env email password w user w2 :
  authenticate_user env email password w = (Ok (Some user), w2) ->
  exists d id,
    In d (users w) /\ has_email email d = true
    /\ d !! "_id" = Some id
    /\ user = <["id" := VStr (py_str id)]> (<["email" := VStr email]>
              (<["name" := dict_get d "name"]>
              (<["created_at" := dict_get d "created_at"]> ∅)))
    /\ clock w2 = clock w + latency (driver env) Users FindOne.
Proof.
  unfold authenticate_user, subscript. intros H. minv.
  all: repeat match goal with
  | D : users_find_one _ _ _ = _ |- _ =>
      apply users_find_one_Ok_inv in D as (? & Hf & ->)
  | D : get_users_collection _ _ = _ |- _ =>
      apply get_users_collection_Ok_inv in D as (Hs & Hk & _);
      injection Hs as Hu _ _
  | D : match ?x with _ => _ end = Ok _ |- _ =>
      destruct x eqn:?; [injection D as <- | discriminate D]
  | D : None = Some _ |- _ => discriminate D
  | D : Some _ = Some _ |- _ => injection D as <-
  end.
  symmetry in Hf. rewrite Hu in Hf. apply find_some in Hf as [Hin Hd].
  pose proof Hd as Hd'. unfold has_email in Hd'.
  match goal with
  | E : _ !! "email" = Some ?em |- _ =>
      rewrite E in Hd'; apply pyval_eqb_eq in Hd'; subst em
  end.
  match goal with
  | Hid : ?g !! "_id" = Some ?p, Hc : ?g !! "created_at" = Some ?c |- _ =>
      exists g, p; unfold dict_get; rewrite Hc
  end.
  wsimpl. repeat split; auto. lia.
Qed.

(** X3.  The token a successful [login] returns is accepted by
    [get_current_user] in every state whose clock has not passed its expiry.
    The identity it yields carries the e-mail that was submitted and the
    [_id] of a stored user document with that e-mail; the expiry is the
    second of issue plus the configured lifetime. *)
Theorem login_token_is_accepted env creds w tok w1 :
  login env creds w = (Ok tok, w1) ->
  exists d id td,
    In d (users w) /\ has_email (ul_email creds) d = true
    /\ d !! "_id" = Some id
    /\ td = mkTokenData (py_str id) (ul_email creds)
              ((clock w + latency (driver env) Users FindOne
                + jwt_expiry_minutes (settings env) * 60000000) / 1000000)
    /\ token_type tok = "bearer"
    /\ expires_in tok = jwt_expiry_minutes (settings env) * 60
    /\ forall sch w',
         clock w' / 1000000 <= td_exp td ->
         get_current_user env (mkCredentials sch (access_token tok)) w'
         = (Ok td, w').
Proof.
  intros H.
  unfold login in H. minv.
  all: try (cbn in *; discriminate).
  match goal with
  | D : authenticate_user _ _ _ _ = (Ok ?o, _) |- _ =>
      destruct o as [user |]; [| cbn in *; discriminate];
      apply authenticate_user_found in D;
      destruct D as (d & oid & Hin & Hd & Hid & Eu & Hc); subst user
  end.
  unfold default, from_option, Datatypes.id in *. subscripts.
  eexists _, _, _. split; [exact Hin |]. split; [exact Hd |].
  split; [exact Hid |]. split; [reflexivity |]. split; [reflexivity |].
  split; [reflexivity |].
  intros sch w' Hle. unfold get_current_user. cbn [credentials access_token].
  match goal with
  | D : create_access_token _ _ _ _ _ = _ |- _ =>
      pose proof (verify_issued_token _ _ _ _ _ _ _ w' D) as V
  end.
  cbn [default] in V. rewrite Hc in V.
  unfold_monad. cbn [td_exp] in Hle. rewrite (V Hle). reflexivity.
Qed.


Lemma login_token_is_accepted_witness :
  exists tok w1 td,
    login Demo.demo_env (mkUserLogin "alice@example.com" "pw1")
          (snd (register Demo.demo_env Demo.alice Demo.w0)) = (Ok tok, w1)
    /\ td_email td = "alice@example.com"
    /\ forall sch w',
         clock w' / 1000000 <= td_exp td ->
         get_current_user Demo.demo_env (mkCredentials sch (access_token tok)) w'
         = (Ok td, w').
Proof.
  assert (H : exists tok w1,
             login Demo.demo_env (mkUserLogin "alice@example.com" "pw1")
                   (snd (register Demo.demo_env Demo.alice Demo.w0)) = (Ok tok, w1))
    by (eexists; eexists; vm_compute; reflexivity).
  destruct H as (tok & w1 & H).
  destruct (login_token_is_accepted _ _ _ _ _ H)
    as (d & id & td & _ & _ & _ & E & _ & _ & V).
  exists tok, w1, td. split; [exact H |]. split; [| exact V].
  rewrite E. reflexivity.
Defined.

(** ** Which tokens verify *)

Lemma option_eqb_eq {A} (eqb : A -> A -> bool) (a b : option A) :
  (forall x y, eqb x y = true -> x = y) ->
  option_eqb eqb a b = true -> a = b.
Proof.
  intros E. destruct a, b; cbn; intros H; try discriminate; try reflexivity.
  f_equal. apply E. exact H.
Qed.

Lemma Claims_eqb_eq a b : Claims_eqb a b = true -> a = b.
Proof.
  unfold Claims_eqb. intros H.
  apply andb_prop in H as [H Hx]. apply andb_prop in H as [Hs Hm].
  apply (option_eqb_eq _ _ _ pyval_eqb_eq) in Hs.
  apply (option_eqb_eq _ _ _ pyval_eqb_eq) in Hm.
  apply (option_eqb_eq Z.eqb) in Hx; [| intros x y; apply Z.eqb_eq].
  destruct a, b; cbn in *; congruence.
Qed.

Ltac unfold_monad_in H :=
  unfold call in H;
  unfold bind, try_except, tick, lift_res, ret, raise, time_time, utcnow, logger
    in H.

(** X4.  [verify_token] returns an identity only for a token that carries
    the configured algorithm and a signature made with the configured key
    over exactly the payload presented, whose [sub] and [email] are the
    strings of the identity and whose [exp] has not passed.  It leaves the
    state as it found it. *)
Theorem verify_token_accepts_only_signed_tokens env t w td w' :
  verify_token env t w = (Ok (Some td), w') ->
  let claims :=
    mkClaims (Some (VStr (td_user_id td))) (Some (VStr (td_email td)))
             (Some (td_exp td)) in
  t = Compact (jwt_algorithm (settings env)) claims
        (mkSignature (jwt_secret_key (settings env))
                     (jwt_algorithm (settings env)) claims)
  /\ clock w / 1000000 <= td_exp td
  /\ w' = w.
Proof.
  intros H. unfold verify_token, jwt_decode in H.
  destruct t as [text | alg claims [skey salg sclaims]].
  - unfold_monad_in H. cbn in H. discriminate.
  - unfold_monad_in H. cbn [existsb orb signed_key signed_alg signed_claims] in H.
    destruct (String.eqb alg (jwt_algorithm (settings env))) eqn:Ea;
      [| cbn in H; discriminate].
    destruct (String.eqb skey (jwt_secret_key (settings env))) eqn:Ek;
      [| cbn in H; discriminate].
    destruct (String.eqb salg alg) eqn:Es; [| cbn in H; discriminate].
    destruct (Claims_eqb sclaims claims) eqn:Ec; [| cbn in H; discriminate].
    apply String.eqb_eq in Ea, Ek, Es. apply Claims_eqb_eq in Ec. subst.
    cbn [negb andb orb] in H.
    destruct claims as [[s |] [m |] [x |]];
      try destruct s; try destruct m; cbn in H;
      repeat match type of H with
      | context [if ?b then _ else _] => destruct b eqn:?; cbn in H
      end; try discriminate.
    injection H as <- <-. cbn.
    repeat split; auto.
    match goal with
    | L : Z.ltb _ _ = false |- _ => apply Z.ltb_ge in L; exact L
    end.
Qed.

Lemma verify_token_accepts_only_signed_tokens_witness :
  Demo.alice_token
  = Compact "HS256" Demo.alice_claims
      (mkSignature "s3cret" "HS256" Demo.alice_claims)
  /\ clock Demo.w0 / 1000000 <= 3600.
Proof.
  assert (H : verify_token Demo.demo_env Demo.alice_token Demo.w0
              = (Ok (Some Demo.alice_identity), Demo.w0))
    by (vm_compute; reflexivity).
  destruct (verify_token_accepts_only_signed_tokens _ _ _ _ _ H) as (A & B & _).
  split; [exact A | exact B].
Defined.

(** X5.  A token issued under one configuration, presented under another:
    it is accepted exactly when the secret key and the algorithm agree and
    the second of its expiry has not passed; otherwise [verify_token]
    answers [None] and the dependency [get_current_user] raises its 401.
    Rotating the secret thus invalidates every outstanding token, and
    nothing else than expiry does. *)
Theorem issued_token_validity env env' uid email delta w0 t wi cs w :
  create_access_token env (VStr uid) (VStr email) delta w0 = (Ok t, wi) ->
  let exp :=
    (clock w0 + default (jwt_expiry_minutes (settings env) * 60000000) delta)
    / 1000000 in
  let accepted :=
    String.eqb (jwt_secret_key (settings env)) (jwt_secret_key (settings env'))
    && String.eqb (jwt_algorithm (settings env)) (jwt_algorithm (settings env'))
    && Z.leb (clock w / 1000000) exp in
  fst (verify_token env' t w)
  = Ok (if accepted then Some (mkTokenData uid email exp) else None)
  /\ fst (get_current_user env' (mkCredentials cs t) w)
     = if accepted then Ok (mkTokenData uid email exp)
       else Raise (HTTPException 401 "Could not validate credentials").
Proof.
  intros H exp accepted. apply create_access_token_Ok_inv in H.
  fold exp in H. cbv zeta in H.
  assert (V : fst (verify_token env' t w)
              = Ok (if accepted then Some (mkTokenData uid email exp) else None)).
  { subst t accepted. unfold verify_token, jwt_decode. unfold_monad.
    cbn [existsb signed_key signed_alg signed_claims c_exp c_sub c_email].
    rewrite String.eqb_refl, Claims_eqb_refl.
    destruct (String.eqb (jwt_algorithm (settings env))
                         (jwt_algorithm (settings env'))) eqn:Ea;
      [| rewrite andb_false_r; reflexivity].
    destruct (String.eqb (jwt_secret_key (settings env))
                         (jwt_secret_key (settings env'))) eqn:Ek;
      [| reflexivity].
    cbn [orb negb andb expired sub_is_text].
    destruct (Z.ltb_spec exp (clock w / 1000000)) as [L | L];
      destruct (Z.leb_spec (clock w / 1000000) exp) as [L' | L'];
      try lia; reflexivity. }
  split; [exact V |].
  unfold get_current_user, credentials_exception.
  cbn [credentials]. unfold bind.
  destruct (verify_token env' t w) as [[o | e] w2]; cbn [fst] in V;
    [| discriminate].
  injection V as ->. destruct accepted; reflexivity.
Qed.

Lemma issued_token_validity_witness :
  exists t,
    fst (verify_token Demo.demo_env t Demo.w0)
    = Ok (Some (mkTokenData "000000000000000000000000" "alice@example.com" 3600))
    /\ fst (verify_token
              (Demo.mk_env (mkSettings "mongodb+srv://cluster0.mongodb.net"
                                       "rotated" "HS256" 60 "unsplash-key")
                           Demo.quiet_driver Demo.demo_stages) t Demo.w0)
       = Ok None.
Proof.
  assert (H : exists t wi,
             create_access_token Demo.demo_env (VStr "000000000000000000000000")
               (VStr "alice@example.com") None Demo.w0 = (Ok t, wi))
    by (eexists; eexists; vm_compute; reflexivity).
  destruct H as (t & wi & H). exists t. split.
  - exact (proj1 (issued_token_validity Demo.demo_env Demo.demo_env _ _ _ _ _ _
                    "Bearer" Demo.w0 H)).
  - exact (proj1 (issued_token_validity Demo.demo_env
                    (Demo.mk_env (mkSettings "mongodb+srv://cluster0.mongodb.net"
                                             "rotated" "HS256" 60 "unsplash-key")
                                 Demo.quiet_driver Demo.demo_stages)
                    _ _ _ _ _ _ "Bearer" Demo.w0 H)).
Defined.

(** ** Reading any outcome backwards *)

(** One step of reading a hypothesis [c w = (r, w')] backwards, whatever
    the result [r] is. *)
Ltac ainv_step :=
  match goal with
  | H : bind _ _ _ = (_, _) |- _ =>
      let e := fresh "e" in
      let a := fresh "a" in
      let w := fresh "w" in
      let H1 := fresh "H" in
      let Hr := fresh "Hr" in
      apply bind_inv in H;
      destruct H as [(e & H & Hr) | (a & w & H1 & H)];
      [ first [discriminate Hr | injection Hr as Hr; subst | subst]
      | cbv beta in H ]
  | H : ret _ _ = (_, _) |- _ => unfold ret in H
  | H : raise _ _ = (_, _) |- _ => unfold raise in H
  | H : lift_res _ _ = (_, _) |- _ => unfold lift_res in H
  | H : time_time _ = (_, _) |- _ => unfold time_time in H
  | H : utcnow _ = (_, _) |- _ => unfold utcnow in H
  | H : logger _ _ _ = (_, _) |- _ => unfold logger in H
  | H : tick _ _ = (_, _) |- _ => unfold tick in H
  | H : (Raise _, _) = (Ok _, _) |- _ => discriminate H
  | H : (Ok _, _) = (Raise _, _) |- _ => discriminate H
  | H : (_, _) = (_, _) |- _ => injection H; clear H; intros; subst
  | H : (if ?b then _ else _) _ = (_, _) |- _ => destruct b eqn:?
  | H : (match ?x with _ => _ end) _ = (_, _) |- _ => destruct x eqn:?
  | H : (match ?x with _ => _ end) = (_, _) |- _ => destruct x eqn:?
  | H : (fun _ => _) _ = (_, _) |- _ => cbv beta in H
  end.

Ltac ainv := repeat ainv_step.

(** ** E-mail addresses stay unique *)

Lemma emails_app l l' : emails (l ++ l') = (emails l ++ emails l')%list.
Proof. unfold emails. apply omap_app. Qed.

Lemma find_none_not_on_file e l :
  List.find (has_email e) l = None -> ~ In (VStr e) (emails l).
Proof.
  induction l as [| d l IH]; cbn; [tauto |].
  destruct (has_email e d) eqn:Hd; [discriminate |].
  intros F. specialize (IH F). unfold has_email in Hd.
  destruct (d !! "email") as [v |] eqn:Ev; cbn; [| exact IH].
  intros [-> | Hin]; [| tauto].
  rewrite pyval_eqb_refl in Hd. discriminate.
Qed.

Lemma log_user_action_users env uid action data w r w1 :
  log_user_action env uid action data w = (r, w1) -> users w1 = users w.
Proof.
  unfold log_user_action, history_insert_one, get_history_collection,
    get_mongo_db, get_mongo_client, driver_call.
  intros H. ainv; reflexivity.
Qed.

Lemma create_user_users env user_data w r w1 :
  create_user env user_data w = (r, w1) ->
  users w1 = users w
  \/ (List.find (has_email (uc_email user_data)) (users w) = None
      /\ exists d, users w1 = (users w ++ [d])%list
                   /\ d !! "email" = Some (VStr (uc_email user_data))).
Proof.
  unfold create_user, hash_password, users_insert_one, users_find_one,
    get_users_collection, get_mongo_db, get_mongo_client, driver_call.
  intros H. ainv; wsimpl; try (left; reflexivity).
  all: right; split;
    [ match goal with
      | T : truthy_doc _ = false |- _ => apply find_email_not_truthy in T; exact T
      end
    | eexists; split; [reflexivity | by simplify_map_eq] ].
Qed.

(** X6.  Whatever [register] answers, and wherever it fails, it keeps the
    e-mail addresses on file pairwise distinct: it adds at most one user
    document, and only for an address that [find_one] did not find. *)
Theorem register_keeps_emails_unique env user_data w :
  NoDup (emails (users w)) ->
  NoDup (emails (users (snd (register env user_data w)))).
Proof.
  intros N.
  destruct (register env user_data w) as [r w1] eqn:H. cbn [snd].
  assert (E : users w1 = users w
              \/ (List.find (has_email (uc_email user_data)) (users w) = None
                  /\ exists d, users w1 = (users w ++ [d])%list
                       /\ d !! "email" = Some (VStr (uc_email user_data)))).
  { unfold register in H.
    destruct (negb (truthy (mongodb_uri (settings env)))).
    - unfold raise in H. injection H as <- <-. left. reflexivity.
    - apply bind_inv in H as [(e & H & ->) | (user & w2 & H1 & H)].
      + exact (create_user_users _ _ _ _ _ H).
      + apply create_user_users in H1.
        assert (U : users w1 = users w2).
        { ainv; try reflexivity;
            match goal with
            | L : log_user_action _ _ _ _ _ = _ |- _ =>
                apply log_user_action_users in L
            end; congruence. }
        rewrite U. exact H1. }
  destruct E as [-> | (F & d & -> & Ed)]; [exact N |].
  assert (S : emails [d] = [VStr (uc_email user_data)])
    by (unfold emails; cbn; rewrite Ed; reflexivity).
  rewrite emails_app, S.
  apply NoDup_app. repeat split.
  - exact N.
  - intros x Hx Hin. apply list_elem_of_In in Hx.
    apply list_elem_of_In in Hin. cbn in Hin. destruct Hin as [<- | []].
    exact (find_none_not_on_file _ _ F Hx).
  - apply NoDup_singleton.
Qed.

Lemma register_keeps_emails_unique_witness :
  NoDup (emails (users (snd (register Demo.demo_env Demo.alice
                               (snd (register Demo.demo_env Demo.alice Demo.w0)))))).
Proof.
  apply register_keeps_emails_unique.
  apply register_keeps_emails_unique.
  vm_compute. apply NoDup_nil_2.
Defined.

(** ** What [generate_blog] leaves behind, whatever it answers *)

Lemma try_except_inv {A} (c : M A) catches h w (r : res A) w2 :
  try_except c catches h w = (r, w2) ->
  (exists a, c w = (Ok a, w2) /\ r = Ok a)
  \/ exists e w1, c w = (Raise e, w1)
       /\ ((catches e = true /\ h e w1 = (r, w2))
           \/ (catches e = false /\ r = Raise e /\ w2 = w1)).
Proof.
  unfold try_except. destruct (c w) as [[a | e] w1]; intros H.
  - injection H as <- <-. left. eauto.
  - right. exists e, w1. split; [reflexivity |].
    destruct (catches e); [left | right]; auto.
    injection H as <- <-. auto.
Qed.

(** [ainv] extended to [try_except] and to the calls of the stages. *)
Ltac pinv_step :=
  match goal with
  | H : call _ _ = (Ok _, _) |- _ =>
      let H1 := fresh "H" in
      apply call_Ok_inv in H; destruct H as [H1 H]; subst
  | H : call _ _ = (Raise _, _) |- _ =>
      let H1 := fresh "H" in
      apply call_Raise_inv in H; destruct H as [H1 H]; subst
  | H : try_except _ _ _ _ = (_, _) |- _ =>
      let a := fresh "a" in
      let e := fresh "e" in
      let w := fresh "w" in
      let H1 := fresh "H" in
      let Hc := fresh "Hc" in
      let Hr := fresh "Hr" in
      let Hw := fresh "Hw" in
      apply try_except_inv in H;
      destruct H as [(a & H & Hr) | (e & w & H1 & [(Hc & H) | (Hc & Hr & Hw)])];
      [ first [discriminate Hr | injection Hr as Hr; subst | subst]
      | cbv beta in H
      | first [discriminate Hr | injection Hr as Hr; subst | subst] ]
  | _ => ainv_step
  end.

Ltac pinv := repeat pinv_step.

Ltac store_eqs :=
  repeat match goal with
  | H : store _ = store _ |- _ => unfold store in H; injection H as ? ? ?
  end.

Lemma get_mongo_client_inv env w r w2 :
  get_mongo_client env w = (r, w2) ->
  store w2 = store w /\ clock w2 = clock w /\ next_oid w2 = next_oid w
  /\ logs w2 = logs w
  /\ match r with
     | Ok _ => mongo_client w2 = true
     | Raise _ => mongo_client w = false /\ w2 = w
     end.
Proof.
  unfold get_mongo_client. intros H.
  destruct (mongo_client w) eqn:Hm; [| destruct (negb _)];
    injection H as <- <-; auto 10.
Qed.

Lemma get_blogs_collection_inv env w r w2 :
  get_blogs_collection env w = (r, w2) ->
  store w2 = store w /\ clock w2 = clock w /\ next_oid w2 = next_oid w
  /\ logs w2 = logs w
  /\ match r with
     | Ok _ => mongo_client w2 = true
     | Raise _ => mongo_client w = false /\ w2 = w
     end.
Proof.
  unfold get_blogs_collection, get_mongo_db. intros H. ainv;
    match goal with
    | G : get_mongo_client _ _ = _ |- _ => apply get_mongo_client_inv in G
    end; assumption.
Qed.

Lemma blogs_insert_one_Raise_inv env doc w e w2 :
  blogs_insert_one env doc w = (Raise e, w2) ->
  fault (driver env) Blogs InsertOne = Some e
  /\ store w2 = store w /\ mongo_client w2 = mongo_client w
  /\ next_oid w2 = next_oid w /\ logs w2 = logs w.
Proof.
  unfold blogs_insert_one, driver_call. intros H. ainv. auto.
Qed.

Lemma log_user_action_Raise_inv env uid action data w e w2 :
  log_user_action env uid action data w = (Raise e, w2) ->
  store w2 = store w /\ logs w2 = logs w /\ next_oid w2 = next_oid w
  /\ (mongo_client w = true -> fault (driver env) History InsertOne = Some e).
Proof.
  unfold log_user_action, history_insert_one, get_history_collection,
    get_mongo_db, get_mongo_client, driver_call.
  intros H. ainv; wsimpl; repeat split; auto; intros; congruence.
Qed.

Lemma blogs_insert_one_keeps_client env doc w r w2 :
  blogs_insert_one env doc w = (r, w2) -> mongo_client w2 = mongo_client w.
Proof.
  unfold blogs_insert_one, driver_call. intros H. ainv; reflexivity.
Qed.

(** X7.  The effect of [generate_blog] on the three collections, whatever
    it answers.  It never touches [users].  When it returns a response, it
    has appended exactly one artifact, the stored form of that response
    under a server-chosen id, and exactly one audit entry that names this
    id.  When it raises, either nothing was written, or the artifact was
    written and the audit entry was not, and then it is the insert into
    [history] that failed. *)
Theorem generate_blog_store_effect env request current_user w r w' :
  generate_blog env request current_user w = (r, w') ->
  users w' = users w
  /\ match r with
     | Ok resp =>
         exists doc ts,
           blogs w' = (blogs w ++ [doc])%list
           /\ b_id doc = mk_oid (next_oid w)
           /\ stored_form doc (td_user_id current_user) (rq_url request) resp
           /\ history w'
              = (history w ++
                 [mkHistoryDoc (VStr (td_user_id current_user)) "generate_blog"
                    [("url", rq_url request); ("title", title (blog resp));
                     ("blog_id", b_id doc)] ts])%list
     | Raise e =>
         history w' = history w
         /\ (blogs w' = blogs w
             \/ exists doc,
                  blogs w' = (blogs w ++ [doc])%list
                  /\ b_user_id doc = td_user_id current_user
                  /\ fault (driver env) History InsertOne <> None)
     end.
Proof.
  unfold generate_blog, generate_blog_body, generate_blog_except. intros H.
  pinv.
  all: repeat match goal with
       | G : fetch_images_step _ _ _ = _ |- _ =>
           apply fetch_images_step_frame in G; destruct G as (? & ? & ?)
       | G : get_blogs_collection _ _ = _ |- _ =>
           apply get_blogs_collection_inv in G; destruct G as (? & ? & ? & ? & ?)
       | G : blogs_insert_one _ _ _ = (Ok _, _) |- _ =>
           pose proof (blogs_insert_one_keeps_client _ _ _ _ _ G);
           apply blogs_insert_one_Ok_inv in G;
           destruct G as (? & ? & ? & ? & ? & ?)
       | G : blogs_insert_one _ _ _ = (Raise _, _) |- _ =>
           apply blogs_insert_one_Raise_inv in G;
           destruct G as (? & ? & ? & ? & ?)
       | G : log_user_action _ _ _ _ _ = (Ok _, _) |- _ =>
           apply log_user_action_Ok_inv in G;
           destruct G as (? & ? & ? & ? & ?)
       | G : log_user_action _ _ _ _ _ = (Raise _, _) |- _ =>
           apply log_user_action_Raise_inv in G;
           destruct G as (? & ? & ? & ?)
       end.
  all: store_eqs; wsimpl.
  all: try (split; [congruence | split; [congruence | left; congruence]]).
  all: repeat match goal with
       | E : users _ = _ |- _ => rewrite E
       | E : history _ = _ |- _ => rewrite E
       | E : blogs _ = _ |- _ => rewrite E
       | E : next_oid _ = _ |- _ => rewrite E
       end.
  - split; [reflexivity |]. eexists; eexists.
    split; [reflexivity |]. cbn [b_id bson_blog]. subst.
    split; [congruence |].
    split; [unfold stored_form; cbn; auto 10 |]. reflexivity.
  - split; [reflexivity |]. split; [reflexivity |].
    right. eexists. split; [reflexivity |]. split; [reflexivity |].
    match goal with
    | F : mongo_client _ = true -> _ |- _ => rewrite F by congruence
    end. discriminate.
  - split; [reflexivity |]. split; [reflexivity |].
    right. eexists. split; [reflexivity |]. split; [reflexivity |].
    match goal with
    | F : mongo_client _ = true -> _ |- _ => rewrite F by congruence
    end. discriminate.
  - split; [reflexivity |]. split; [reflexivity |].
    right. eexists. split; [reflexivity |]. split; [reflexivity |].
    match goal with
    | F : mongo_client _ = true -> _ |- _ => rewrite F by congruence
    end. discriminate.
Qed.

Lemma generate_blog_store_effect_witness :
  users Demo.w_after_alice = users Demo.w0
  /\ length (blogs Demo.w_after_alice) = 1%nat.
Proof.
  assert (H : exists r,
             generate_blog Demo.demo_env Demo.demo_request Demo.alice_identity
               Demo.w0 = (Ok r, Demo.w_after_alice))
    by (eexists; vm_compute; reflexivity).
  destruct H as (r & H).
  destruct (generate_blog_store_effect _ _ _ _ _ _ H) as (U & doc & ts & B & _).
  split; [exact U |]. rewrite B. reflexivity.
Defined.

(** ** How [generate_blog] fails *)

Lemma error_lines_warning l msg :
  error_lines (l ++ [(WARNING, msg)]) = error_lines l.
Proof.
  unfold error_lines. rewrite List.filter_app. cbn. apply app_nil_r.
Qed.

Lemma error_lines_error l msg :
  error_lines (l ++ [(ERROR, msg)]) = (error_lines l ++ [(ERROR, msg)])%list.
Proof. unfold error_lines. rewrite List.filter_app. reflexivity. Qed.

Lemma fetch_images_step_logs env keyword_data w r w' :
  fetch_images_step env keyword_data w = (r, w') ->
  error_lines (logs w') = error_lines (logs w).
Proof.
  unfold fetch_images_step. intros H. pinv; wsimpl;
    rewrite ?error_lines_warning; reflexivity.
Qed.

Lemma blogs_insert_one_logs env doc w r w2 :
  blogs_insert_one env doc w = (r, w2) -> logs w2 = logs w.
Proof.
  unfold blogs_insert_one, driver_call. intros H. ainv; reflexivity.
Qed.

Lemma log_user_action_logs env uid action data w r w2 :
  log_user_action env uid action data w = (r, w2) -> logs w2 = logs w.
Proof.
  unfold log_user_action, history_insert_one, get_history_collection,
    get_mongo_db, get_mongo_client, driver_call.
  intros H. ainv; reflexivity.
Qed.

(** The [try] block writes no line at level [ERROR], whatever it does. *)
Lemma generate_blog_body_error_lines env request current_user start w r w1 :
  generate_blog_body env request current_user start w = (r, w1) ->
  error_lines (logs w1) = error_lines (logs w).
Proof.
  unfold generate_blog_body. intros H.
  pinv.
  all: repeat match goal with
       | G : fetch_images_step _ _ _ = _ |- _ =>
           apply fetch_images_step_logs in G
       | G : get_blogs_collection _ _ = _ |- _ =>
           apply get_blogs_collection_inv in G; destruct G as (_ & _ & _ & ? & _)
       | G : blogs_insert_one _ _ _ = _ |- _ =>
           apply blogs_insert_one_logs in G
       | G : log_user_action _ _ _ _ _ = _ |- _ =>
           apply log_user_action_logs in G
       end.
  all: wsimpl.
  all: repeat match goal with
       | E : logs _ = _ |- _ => rewrite E
       end.
  all: congruence.
Qed.

(** X8.  Every failure of [generate_blog] is an [HTTPException], so the
    client is always answered by the handler of HTTP errors with the
    status and the detail the exception carries.  It comes from the
    exception [e0] that left the [try] block, which itself writes no line
    at level [ERROR]: an [HTTPException] passes as it is and nothing is
    logged; an exception of any other class is logged in one [ERROR] line
    "Unexpected error: ..." and wrapped as the 500 "Internal server
    error: ...", both quoting its message. *)
Theorem generate_blog_failures env request current_user w e w' :
  generate_blog env request current_user w = (Raise e, w') ->
  (exists status detail,
     e = HTTPException status detail
     /\ respond (A := BlogGenerationResponse) (Raise e)
        = (status, inr (mkErrorResponse false detail
                          ("Status code: " ++ pretty status))))
  /\ exists e0 w1,
       generate_blog_body env request current_user (clock w) w = (Raise e0, w1)
       /\ error_lines (logs w1) = error_lines (logs w)
       /\ if is_HTTPException e0
          then e = e0 /\ w' = w1
          else e = HTTPException 500 ("Internal server error: " ++ str_exn e0)
               /\ w' = log_line ERROR ("Unexpected error: " ++ str_exn e0) w1
               /\ error_lines (logs w')
                  = (error_lines (logs w)
                     ++ [(ERROR, ("Unexpected error: " ++ str_exn e0)%string)])%list.
Proof.
  unfold generate_blog. unfold bind at 1. unfold time_time, try_except.
  destruct (generate_blog_body env request current_user (clock w) w)
    as [[r | e0] w1] eqn:B; [discriminate |].
  pose proof (generate_blog_body_error_lines _ _ _ _ _ _ _ B) as L.
  cbn [any_exception]. unfold generate_blog_except.
  destruct (is_HTTPException e0) eqn:Ht; unfold_monad; intros H;
    injection H as <- <-.
  - split.
    + destruct e0; try discriminate. eexists; eexists; split; reflexivity.
    + exists e0, w1. rewrite Ht. auto.
  - split.
    + eexists; eexists; split; reflexivity.
    + exists e0, w1. rewrite Ht. repeat split; auto.
      wsimpl. rewrite error_lines_error, L. reflexivity.
Qed.

Lemma generate_blog_failures_witness :
  exists e w',
    generate_blog
      (Demo.mk_env Demo.demo_settings Demo.quiet_driver Demo.stages_generation_fails)
      Demo.demo_request Demo.alice_identity Demo.w0 = (Raise e, w')
    /\ is_HTTPException e = true.
Proof.
  assert (H : exists e w',
             generate_blog
               (Demo.mk_env Demo.demo_settings Demo.quiet_driver
                            Demo.stages_generation_fails)
               Demo.demo_request Demo.alice_identity Demo.w0 = (Raise e, w'))
    by (eexists; eexists; vm_compute; reflexivity).
  destruct H as (e & w' & H). exists e, w'. split; [exact H |].
  destruct (generate_blog_failures _ _ _ _ _ _ H) as ((s & d & -> & _) & _).
  reflexivity.
Defined.

(** The keyword stage raises a [RuntimeError]: the client gets the 500
    that quotes it, the log one line at level [ERROR], and the collections
    nothing. *)
Example unexpected_failure_is_logged_and_wrapped :
  let stages_keywords_fail :=
    mkCollaborators
      (validate Demo.demo_stages) (extract Demo.demo_stages)
      (clean Demo.demo_stages)
      (fun _ => mkCall (Raise (PyException "RuntimeError" "nlp model missing")) 1000)
      (analyze Demo.demo_stages) (build_prompt Demo.demo_stages)
      (generate Demo.demo_stages) (get_featured_image Demo.demo_stages)
      (fetch_images Demo.demo_stages) (process Demo.demo_stages) in
  let r :=
    generate_blog
      (Demo.mk_env Demo.demo_settings Demo.quiet_driver stages_keywords_fail)
      Demo.demo_request Demo.alice_identity Demo.w0 in
  fst r = Raise (HTTPException 500 "Internal server error: nlp model missing")
  /\ logs (snd r) = [(ERROR, "Unexpected error: nlp model missing")]
  /\ store (snd r) = store Demo.w0.
Proof. vm_compute. repeat split; reflexivity. Qed.

(** X9.  A URL the validator turns down is answered with the 400 error
    that quotes the validator's message, and the handler stops there: the
    only time that has passed is the validator's, so no later stage, no
    driver call and no log line has happened. *)
Theorem invalid_url_is_rejected_first env request current_user w error_msg :
  outcome (validate (stages env) (rq_url request)) = Ok (false, error_msg) ->
  generate_blog env request current_user w
  = (Raise (HTTPException 400 ("URL validation failed: " ++ error_msg)),
     advance (took (validate (stages env) (rq_url request))) w).
Proof.
  intros Hv. unfold generate_blog, generate_blog_body, generate_blog_except. unfold_monad. mrun. reflexivity.
Qed.

Lemma invalid_url_is_rejected_first_witness :
  fst (generate_blog
         (Demo.mk_env Demo.demo_settings Demo.quiet_driver
            (mkCollaborators
               (fun _ => mkCall (Ok (false, "private address")) 1000)
               (extract Demo.demo_stages) (clean Demo.demo_stages)
               (extract_and_categorize Demo.demo_stages)
               (analyze Demo.demo_stages) (build_prompt Demo.demo_stages)
               (generate Demo.demo_stages)
               (get_featured_image Demo.demo_stages)
               (fetch_images Demo.demo_stages) (process Demo.demo_stages)))
         Demo.demo_request Demo.alice_identity Demo.w0)
  = Raise (HTTPException 400 "URL validation failed: private address").
Proof.
  rewrite (invalid_url_is_rejected_first _ _ _ _ "private address");
    reflexivity.
Defined.



(** X11.  A page that cleans to the empty text is answered with the 400
    "No usable content found after cleaning" error; the stages after the
    cleaner are not run and nothing is written. *)
Theorem empty_content_is_rejected
  env request current_user w error_msg content_data :
  outcome (validate (stages env) (rq_url request)) = Ok (true, error_msg) ->
  outcome (extract (stages env) (rq_url request)) = Ok content_data ->
  outcome (clean (stages env) (cd_text content_data)) = Ok "" ->
  generate_blog env request current_user w
  = (Raise (HTTPException 400 "No usable content found after cleaning"),
     advance (took (clean (stages env) (cd_text content_data)))
       (advance (took (extract (stages env) (rq_url request)))
          (advance (took (validate (stages env) (rq_url request))) w))).
Proof.
  intros Hv Hx Hc. unfold generate_blog, generate_blog_body, generate_blog_except. unfold_monad. mrun. reflexivity.
Qed.

Lemma empty_content_is_rejected_witness :
  fst (generate_blog
         (Demo.mk_env Demo.demo_settings Demo.quiet_driver
            (mkCollaborators
               (validate Demo.demo_stages) (extract Demo.demo_stages)
               (fun _ => mkCall (Ok "") 1000)
               (extract_and_categorize Demo.demo_stages)
               (analyze Demo.demo_stages) (build_prompt Demo.demo_stages)
               (generate Demo.demo_stages)
               (get_featured_image Demo.demo_stages)
               (fetch_images Demo.demo_stages) (process Demo.demo_stages)))
         Demo.demo_request Demo.alice_identity Demo.w0)
  = Raise (HTTPException 400 "No usable content found after cleaning").
Proof.
  rewrite (empty_content_is_rejected _ _ _ _ ""
             (mkContentData "raw text" (Some "Page")));
    reflexivity.
Defined.

(** ** From [generate_blog] to [get_blog] *)

Lemma hex_digit_ok m :
  (m < 16)%N ->
  is_hex_digit (hex_digit m) = true /\ lower_ascii (hex_digit m) = hex_digit m
  /\ is_space (hex_digit m) = false.
Proof.
  intros H.
  assert (E : m = N.of_nat (N.to_nat m)) by lia.
  remember (N.to_nat m) as k eqn:Ek.
  assert (L : (k < 16)%nat) by lia. clear Ek H.
  do 16 (destruct k as [| k]; [subst m; vm_compute; auto |]).
  lia.
Qed.

Lemma hex_fixed_length width : forall n acc,
  String.length (hex_fixed width n acc) = (width + String.length acc)%nat.
Proof.
  induction width as [| k IH]; intros n acc; cbn [hex_fixed]; [reflexivity |].
  rewrite IH. cbn [String.length]. lia.
Qed.

(** An even number of digits written in front of a text that
    [bytes.fromhex] reads as itself gives such a text again. *)
Lemma fromhex_hex_fixed pairs : forall n acc,
  fromhex acc = Some acc ->
  fromhex (hex_fixed (2 * pairs) n acc) = Some (hex_fixed (2 * pairs) n acc).
Proof.
  induction pairs as [| k IH]; intros n acc A; [exact A |].
  replace (2 * S k)%nat with (S (S (2 * k))) by lia. cbn [hex_fixed].
  apply IH.
  destruct (hex_digit_ok (n mod 16)%N) as (D0 & L0 & S0);
    [apply N.mod_lt; discriminate |].
  destruct (hex_digit_ok ((n / 16) mod 16)%N) as (D1 & L1 & S1);
    [apply N.mod_lt; discriminate |].
  cbn [fromhex]. rewrite S1, D1, D0, A, L1, L0. reflexivity.
Qed.

(** The text of a server-chosen id reads back as the same id. *)
Lemma ObjectId_new_mk_oid n : ObjectId_new (mk_oid n) = Ok (mk_oid n).
Proof.
  unfold ObjectId_new, mk_oid.
  rewrite hex_fixed_length.
  change 24%nat with (2 * 12)%nat at 2 3.
  rewrite (fromhex_hex_fixed 12 n EmptyString eq_refl). reflexivity.
Qed.

Lemma find_fresh oid uid l d more :
  fresh_blog_id oid l ->
  b_id d = oid -> b_user_id d = uid ->
  List.find (fun d => String.eqb (b_id d) oid && String.eqb (b_user_id d) uid)
            (l ++ d :: more)%list
  = Some d.
Proof.
  intros F Hi Hu. induction F as [| x l Hx F IH]; cbn.
  - rewrite Hi, Hu, !String.eqb_refl. reflexivity.
  - destruct (String.eqb_spec (b_id x) oid) as [E | _]; [contradiction |].
    exact IH.
Qed.

Lemma log_user_action_Ok_client env uid action data w r w2 :
  log_user_action env uid action data w = (Ok r, w2) -> mongo_client w2 = true.
Proof.
  unfold log_user_action, history_insert_one, get_history_collection,
    get_mongo_db, get_mongo_client, driver_call.
  intros H. ainv; wsimpl; auto.
Qed.

Lemma BlogContent_new_Ok_inv m d d' :
  BlogContent_new m d = Ok d' -> d' = d /\ BlogContent_new m d' = Ok d'.
Proof.
  unfold BlogContent_new.
  destruct (BlogContent_check m (title d) (body d)) eqn:C; [discriminate |].
  intros H. injection H as <-. rewrite C. auto.
Qed.

Lemma generate_blog_Ok_inv env request current_user w resp w1 :
  generate_blog env request current_user w = (Ok resp, w1) ->
  exists doc,
    blogs w1 = (blogs w ++ [doc])%list
    /\ b_id doc = mk_oid (next_oid w)
    /\ stored_form doc (td_user_id current_user) (rq_url request) resp
    /\ BlogContent_new (models env) (blog resp) = Ok (blog resp)
    /\ success resp = true
    /\ mongo_client w1 = true.
Proof.
  unfold generate_blog, generate_blog_body, generate_blog_except. intros H. pinv.
  repeat match goal with
  | G : fetch_images_step _ _ _ = _ |- _ =>
      apply fetch_images_step_frame in G; destruct G as (? & ? & ?)
  | G : get_blogs_collection _ _ = _ |- _ =>
      apply get_blogs_collection_inv in G; destruct G as (? & ? & ? & ? & ?)
  | G : blogs_insert_one _ _ _ = (Ok _, _) |- _ =>
      apply blogs_insert_one_Ok_inv in G;
      destruct G as (? & ? & ? & ? & ? & ?)
  | G : log_user_action _ _ _ _ _ = (Ok _, _) |- _ =>
      pose proof (log_user_action_Ok_client _ _ _ _ _ _ _ G);
      apply log_user_action_Ok_inv in G;
      destruct G as (? & ? & ? & ? & ?)
  end.
  match goal with
  | G : BlogContent_new _ _ = Ok _ |- _ =>
      apply BlogContent_new_Ok_inv in G; destruct G as (? & ?)
  end.
  store_eqs; wsimpl.
  repeat match goal with
  | E : blogs _ = _ |- _ => rewrite E
  | E : next_oid _ = _ |- _ => rewrite E
  end.
  eexists. split; [reflexivity |]. unfold stored_form.
  cbn [b_id b_user_id b_url b_title b_blog b_keywords b_analysis b_word_count
       b_processing_time bson_blog blog keywords analysis word_count
       processing_time success].
  subst. repeat split; try assumption; try congruence.
Qed.

(** X12.  What [generate_blog] has returned can be fetched again: as long
    as the id the server chose was not in use, [get_blog] with that id and
    the same identity, in any later state that still holds the artifacts
    and the client, returns the response of [generate_blog] with the time
    of generation filled in. *)
Theorem generated_blog_can_be_fetched env request current_user w resp w1 :
  generate_blog env request current_user w = (Ok resp, w1) ->
  fresh_blog_id (mk_oid (next_oid w)) (blogs w) ->
  fault (driver env) Blogs FindOne = None ->
  mongo_client w1 = true
  /\ exists generated,
       forall w2 more,
         mongo_client w2 = true ->
         blogs w2 = (blogs w1 ++ more)%list ->
         get_blog env (mk_oid (next_oid w)) current_user w2
         = (Ok (mkResponse (success resp) (blog resp) (keywords resp)
                  (analysis resp) (word_count resp) (processing_time resp)
                  (Some generated)),
            advance (latency (driver env) Blogs FindOne) w2).
Proof.
  intros H F Hf.
  destruct (generate_blog_Ok_inv _ _ _ _ _ _ H)
    as (doc & B & Hi & (Hu & _ & _ & Hb & Hk & Ha & Hw & Hp) & C & S & M).
  split; [exact M |]. exists (b_generated_at doc). intros w2 more M2 B2.
  unfold get_blog, blogs_find_one, get_blogs_collection, get_mongo_db,
    get_mongo_client, driver_call.
  rewrite ObjectId_new_mk_oid. unfold_monad. rewrite M2, Hf. wsimpl.
  rewrite B2, B, <- app_assoc. cbn [app].
  rewrite (find_fresh _ _ _ doc more F Hi Hu).
  rewrite Hb, C, Hk, Ha, Hw, Hp, S. reflexivity.
Qed.

Lemma generated_blog_can_be_fetched_witness :
  exists resp,
    fst (get_blog Demo.demo_env (mk_oid (next_oid Demo.w0)) Demo.alice_identity
           Demo.w_after_alice)
    = Ok resp
    /\ word_count resp = 812.
Proof.
  assert (H : exists r,
             generate_blog Demo.demo_env Demo.demo_request Demo.alice_identity
               Demo.w0 = (Ok r, Demo.w_after_alice)
             /\ word_count r = 812)
    by (eexists; vm_compute; split; reflexivity).
  destruct H as (r & H & W).
  destruct (generated_blog_can_be_fetched _ _ _ _ _ _ H) as (M & g & G).
  - apply Forall_nil_2.
  - reflexivity.
  - eexists. rewrite (G Demo.w_after_alice [] M (eq_sym (app_nil_r _))).
    split; [reflexivity | exact W].
Defined.

(** ** The image step, retrieval and the gate *)

(** X13.  The image step cannot fail the request: whatever the image
    fetcher and the [ImageData] constructor do, [fetch_images_step]
    returns.  Without an Unsplash key it returns no image and calls
    nothing, so no time passes. *)
Theorem fetch_images_step_never_raises env keyword_data w :
  exists featured additional w',
    fetch_images_step env keyword_data w = (Ok (featured, additional), w')
    /\ (truthy (unsplash_access_key (settings env)) = false ->
        featured = None /\ additional = [] /\ clock w' = clock w).
Proof.
  destruct (fetch_images_step env keyword_data w) as [[[f a] | e] w'] eqn:H.
  - exists f, a, w'. split; [reflexivity |]. intros K.
    unfold fetch_images_step in H. rewrite K in H. pinv. auto.
  - exfalso. unfold fetch_images_step in H. pinv.
    all: unfold any_exception in *; discriminate.
Qed.

(** X14.  [get_blog] only reads: whatever it answers, the three
    collections, the log and the id counter are what they were.  An id
    that is not the text of an [ObjectId] is answered with the 400
    "Invalid blog ID" error before the database is touched. *)
Theorem get_blog_is_read_only env blog_id current_user w r w' :
  get_blog env blog_id current_user w = (r, w') ->
  store w' = store w /\ logs w' = logs w /\ next_oid w' = next_oid w
  /\ (forall e, ObjectId_new blog_id = Raise e ->
        r = Raise (HTTPException 400 "Invalid blog ID") /\ w' = w).
Proof.
  unfold get_blog, blogs_find_one, driver_call. intros H.
  pinv.
  all: repeat match goal with
       | G : get_blogs_collection _ _ = _ |- _ =>
           apply get_blogs_collection_inv in G; destruct G as (? & ? & ? & ? & ?)
       end.
  all: wsimpl.
  all: unfold any_exception in *; try discriminate.
  all: repeat split; wsimpl; try assumption; try congruence.
  all: intros; congruence.
Qed.

Lemma get_blog_is_read_only_witness :
  store (snd (get_blog Demo.demo_env "not-an-id" Demo.alice_identity
                Demo.w_after_alice))
  = store Demo.w_after_alice.
Proof.
  assert (H : exists r w',
             get_blog Demo.demo_env "not-an-id" Demo.alice_identity
               Demo.w_after_alice = (r, w'))
    by (eexists; eexists; vm_compute; reflexivity).
  destruct H as (r & w' & H). rewrite H.
  exact (proj1 (get_blog_is_read_only _ _ _ _ _ _ H)).
Defined.

Lemma HTTPBearer_call_bearer env sch cred :
  lower sch = "bearer" -> cred <> "" ->
  HTTPBearer_call env (Some (sch ++ " " ++ cred))
  = Ok (mkCredentials sch (token_of_text env cred)).
Proof.
  intros L C.
  unfold HTTPBearer_call, get_authorization_scheme_param, truthy_header.
  assert (Th : truthy (sch ++ " " ++ cred) = true) by (destruct sch; reflexivity).
  rewrite Th.
  rewrite (partition_space_scheme sch cred "bearer" L bearer_has_no_space).
  assert (Ts : truthy sch = true) by (destruct sch; [discriminate L | reflexivity]).
  assert (Tc : truthy cred = true) by (destruct cred; [congruence | reflexivity]).
  rewrite Ts, Tc, L. reflexivity.
Qed.

(** X15.  A protected route runs its handler with the identity the token
    carries: for a header made of the scheme [bearer] in any letter case,
    one space and a credential that [verify_token] accepts, the handler is
    called with the [TokenData] that [verify_token] returned, and its
    answer is the answer of the route. *)
Theorem valid_bearer_runs_the_handler
  {A} env sch cred (handler : TokenData -> M A) td w w' :
  lower sch = "bearer" -> cred <> "" ->
  verify_token env (token_of_text env cred) w = (Ok (Some td), w') ->
  protected env (Some (sch ++ " " ++ cred)) handler w = handler td w'.
Proof.
  intros L C V. unfold protected, get_current_user.
  rewrite (HTTPBearer_call_bearer env sch cred L C).
  unfold_monad. cbn [credentials]. rewrite V. reflexivity.
Qed.

Lemma valid_bearer_runs_the_handler_witness :
  protected Demo.demo_env (Some ("BEARER" ++ " " ++ "alice.jwt")) get_me Demo.w0
  = (Ok Demo.alice_identity, Demo.w0).
Proof.
  rewrite (valid_bearer_runs_the_handler Demo.demo_env "BEARER" "alice.jwt"
             get_me Demo.alice_identity Demo.w0 Demo.w0);
    [reflexivity | reflexivity | discriminate | vm_compute; reflexivity].
Defined.

(** X16.  With no [MONGODB_URI] and no client yet: [register] and [login]
    answer 503 without touching anything; [logout] has no such guard and
    lets the [ValueError] of [get_mongo_client] through, which the client
    sees as the generic 500; and [generate_blog] never returns an
    article, whatever the stages do. *)
Theorem unconfigured_database env w :
  truthy (mongodb_uri (settings env)) = false ->
  mongo_client w = false ->
  (forall user_data,
     register env user_data w
     = (Raise (HTTPException 503
                 "User registration not available (database not configured)"), w))
  /\ (forall creds,
        login env creds w
        = (Raise (HTTPException 503
                    "User authentication not available (database not configured)"), w))
  /\ (forall current_user,
        exists msg,
          logout env current_user w = (Raise (ValueError msg), w)
          /\ fst (respond (A := string) (Raise (ValueError msg))) = 500)
  /\ (forall request current_user resp w',
        generate_blog env request current_user w <> (Ok resp, w')).
Proof.
  intros U C. repeat split.
  - intros user_data. unfold register. rewrite U. reflexivity.
  - intros creds. unfold login. rewrite U. reflexivity.
  - intros current_user. eexists.
    unfold logout, log_user_action, get_history_collection, get_mongo_db,
      get_mongo_client.
    unfold_monad. rewrite C, U. cbn [negb]. split; reflexivity.
  - intros request current_user resp w' H.
    unfold generate_blog, generate_blog_body, generate_blog_except in H. pinv.
    repeat match goal with
    | G : fetch_images_step _ _ _ = _ |- _ =>
        apply fetch_images_step_frame in G; destruct G as (_ & ? & _)
    end.
    match goal with
    | G : get_blogs_collection _ _ = (Ok _, _) |- _ =>
        unfold get_blogs_collection, get_mongo_db, get_mongo_client in G
    end.
    wsimpl. ainv; wsimpl; try congruence.
    all: match goal with
         | G : negb (truthy _) = false |- _ => rewrite U in G; discriminate G
         end.
Qed.

Lemma unconfigured_database_witness :
  fst (register
         (Demo.mk_env (mkSettings "" "s3cret" "HS256" 60 "unsplash-key")
                      Demo.quiet_driver Demo.demo_stages)
         Demo.alice Demo.w0)
  = Raise (HTTPException 503
             "User registration not available (database not configured)").
Proof.
  rewrite (proj1 (unconfigured_database
                    (Demo.mk_env (mkSettings "" "s3cret" "HS256" 60 "unsplash-key")
                                 Demo.quiet_driver Demo.demo_stages)
                    Demo.w0 eq_refl eq_refl) Demo.alice).
  reflexivity.
Defined.

(** ** The life cycle of the client *)

(** X17.  [check_mongo_connection] turns every failure into the answer
    [False]: it never raises and never writes to a collection.  It answers
    [True] only when the ping succeeded, on a client that existed or for a
    URI that is configured; with a client that exists, it answers [True]
    exactly when the ping succeeds.  Each answer [False] leaves one line at
    level [ERROR], an answer [True] none. *)
Theorem check_mongo_connection_never_raises env ping w :
  exists b w' msg,
    check_mongo_connection env ping w = (Ok b, w')
    /\ store w' = store w
    /\ (b = true ->
        (mongo_client w = true \/ truthy (mongodb_uri (settings env)) = true)
        /\ exists u, outcome ping = Ok u)
    /\ (mongo_client w = true -> (exists u, outcome ping = Ok u) -> b = true)
    /\ error_lines (logs w')
       = (error_lines (logs w)
          ++ if b then []
             else [(ERROR, ("MongoDB connection check failed: " ++ msg)%string)])%list.
Proof.
  unfold check_mongo_connection, get_mongo_client.
  unfold call. unfold bind, try_except, tick, lift_res, ret, raise, logger.
  destruct (mongo_client w) eqn:C;
    [| destruct (truthy (mongodb_uri (settings env))) eqn:U];
    cbn [negb orb]; destruct (outcome ping) as [[] | e] eqn:P;
    cbn [any_exception]; eexists; eexists; eexists;
    (split; [reflexivity |]); wsimpl;
    rewrite ?error_lines_error, ?app_nil_r;
    (split; [reflexivity |]); (split; [| split; [| reflexivity]]);
    try discriminate; try (intros _; split; eauto);
    try (intros _ (? & ?); discriminate); auto.
Unshelve. all: exact "".
Qed.

Lemma check_mongo_connection_Ok env ping w :
  exists b w', check_mongo_connection env ping w = (Ok b, w')
               /\ store w' = store w.
Proof.
  unfold check_mongo_connection, get_mongo_client.
  unfold call. unfold bind, try_except, tick, lift_res, ret, raise, logger.
  destruct (mongo_client w) eqn:C;
    [| destruct (truthy (mongodb_uri (settings env))) eqn:U];
    cbn [negb orb]; destruct (outcome ping) as [[] | e] eqn:P;
    cbn [any_exception]; eexists; eexists; (split; [reflexivity |]); wsimpl;
    reflexivity.
Qed.

(** X18.  The application starts and stops whatever the database does:
    both halves of [lifespan] return, and neither writes to a collection.
    After the shutdown half the module holds no client, provided a client
    only ever existed for a configured URI. *)
Theorem lifespan_never_fails_on_the_database env ping w :
  (exists w', lifespan_startup env ping w = (Ok tt, w') /\ store w' = store w)
  /\ (exists w', lifespan_shutdown env w = (Ok tt, w') /\ store w' = store w
        /\ ((mongo_client w = true -> truthy (mongodb_uri (settings env)) = true)
            -> mongo_client w' = false)).
Proof.
  split.
  - unfold lifespan_startup.
    destruct (truthy (mongodb_uri (settings env))) eqn:U.
    + destruct (check_mongo_connection_Ok env ping w) as (b & w' & H & S).
      unfold try_except, bind. rewrite H.
      destruct b; unfold ret, logger; eexists; split; try reflexivity;
        wsimpl; exact S.
    + eexists. split; reflexivity.
  - unfold lifespan_shutdown, close_mongo_connection, try_except.
    destruct (truthy (mongodb_uri (settings env))) eqn:U;
      destruct (mongo_client w) eqn:C; unfold ret;
      eexists; (split; [reflexivity |]); wsimpl; split; try reflexivity; auto.
    intros I. specialize (I eq_refl). discriminate.
Qed.

(** ** [config.py] *)

(** X19.  After [init_settings] of [app/config.py] the provider is always
    one the application knows: a recognised name is kept as it was
    written, in whatever letter case, every other name is replaced by
    [gemini]; no other field is changed, and the result is what the
    module then holds. *)
Theorem init_settings_normalises_the_provider environ p s p' :
  AppConfig.init_settings environ p = (Ok s, p') ->
  AppConfig.recognised s
  /\ AppConfig._settings p' = Some s
  /\ exists s0,
       environ = Ok s0
       /\ s = AppConfig.set_llm_provider (AppConfig.llm_provider s) s0
       /\ (AppConfig.recognised s0 -> s = s0)
       /\ (~ AppConfig.recognised s0 -> AppConfig.llm_provider s = "gemini").
Proof.
  unfold AppConfig.init_settings, AppConfig.recognised.
  destruct environ as [s0 | e]; [| discriminate].
  unfold AppConfig.str_in. cbn [existsb].
  destruct (String.eqb_spec (lower (AppConfig.llm_provider s0)) "openai") as [O | O];
    [| destruct (String.eqb_spec (lower (AppConfig.llm_provider s0)) "gemini")
         as [G | G]];
    cbn [negb orb]; intros H; injection H as <- <-; cbn.
  - split; [auto |]. split; [reflexivity |]. exists s0.
    destruct s0; cbn in *. repeat split; auto. intros N. tauto.
  - split; [auto |]. split; [reflexivity |]. exists s0.
    destruct s0; cbn in *. repeat split; auto. intros N. tauto.
  - split; [auto |]. split; [reflexivity |]. exists s0.
    destruct s0; cbn in *. repeat split; auto. intros [? | ?]; contradiction.
Qed.

Lemma init_settings_normalises_the_provider_witness :
  exists s,
    fst (AppConfig.init_settings
           (Ok (AppConfig.mkSettings "Claude" "" "" "development" "" "k"))
           (AppConfig.mkProcess None [])) = Ok s
    /\ AppConfig.llm_provider s = "gemini".
Proof.
  assert (H : exists s p',
             AppConfig.init_settings
               (Ok (AppConfig.mkSettings "Claude" "" "" "development" "" "k"))
               (AppConfig.mkProcess None []) = (Ok s, p'))
    by (eexists; eexists; vm_compute; reflexivity).
  destruct H as (s & p' & H). exists s. rewrite H. split; [reflexivity |].
  destruct (init_settings_normalises_the_provider _ _ _ _ H)
    as (_ & _ & s0 & E & _ & _ & N).
  injection E as <-. apply N. vm_compute. intros [? | ?]; discriminate.
Defined.

(** X20.  [get_settings] of [backend/app/config.py] is a lazy singleton:
    once a call has returned settings, every later call returns the same
    settings without reading the environment again and without logging;
    a call whose loading failed has stored nothing, so the next call loads
    again. *)
Theorem get_settings_is_cached environ p r p' :
  BackendConfig.get_settings environ p = (r, p') ->
  match r with
  | Ok s =>
      forall environ', BackendConfig.get_settings environ' p' = (Ok s, p')
  | Raise _ =>
      p' = p /\ BackendConfig._settings p = None
      /\ forall environ',
           BackendConfig.get_settings environ' p
           = BackendConfig.init_settings environ' p
  end.
Proof.
  unfold BackendConfig.get_settings.
  destruct (BackendConfig._settings p) as [s |] eqn:S; intros H.
  - injection H as <- <-. intros environ'. rewrite S. reflexivity.
  - unfold BackendConfig.init_settings in H.
    destruct environ as [s | e]; injection H as <- <-.
    + intros environ'. reflexivity.
    + auto.
Qed.

Lemma get_settings_is_cached_witness :
  BackendConfig.get_settings
    (Ok (BackendConfig.mkSettings "other" "production" "" ""))
    (snd (BackendConfig.get_settings
            (Ok (BackendConfig.mkSettings "key" "development" "uri" "secret"))
            (BackendConfig.mkProcess None [])))
  = (Ok (BackendConfig.mkSettings "key" "development" "uri" "secret"),
     BackendConfig.mkProcess
       (Some (BackendConfig.mkSettings "key" "development" "uri" "secret")) []).
Proof.
  assert (H : BackendConfig.get_settings
                (Ok (BackendConfig.mkSettings "key" "development" "uri" "secret"))
                (BackendConfig.mkProcess None [])
              = (Ok (BackendConfig.mkSettings "key" "development" "uri" "secret"),
                 BackendConfig.mkProcess
                   (Some (BackendConfig.mkSettings "key" "development" "uri"
                            "secret")) []))
    by (vm_compute; reflexivity).
  rewrite H. cbn [snd].
  exact (get_settings_is_cached _ _ _ _ H _).
Defined.

(** X21.  [init_settings] of [backend/app/config.py] never warns about a
    missing JWT secret: the class declares the empty string as the default
    of [jwt_secret_key], and the warning is tied to another text, so with
    the secret left unset no call adds the line, in production or
    elsewhere. *)
Theorem unset_secret_is_not_warned_about environ s p :
  environ = Ok s ->
  BackendConfig.jwt_secret_key s = "" ->
  let p' := snd (BackendConfig.init_settings environ p) in
  fst (BackendConfig.init_settings environ p) = Ok s
  /\ BackendConfig._settings p' = Some s
  /\ List.filter (String.eqb BackendConfig.jwt_warning) (BackendConfig.warnings p')
     = List.filter (String.eqb BackendConfig.jwt_warning) (BackendConfig.warnings p).
Proof.
  intros -> K. unfold BackendConfig.init_settings. rewrite K.
  cbn [String.eqb Ascii.eqb Bool.eqb andb].
  rewrite andb_false_r.
  destruct (negb (truthy (BackendConfig.gemini_api_key s)));
    destruct (String.eqb (BackendConfig.app_env s) "production"
              && negb (truthy (BackendConfig.mongodb_uri s)));
    cbn; rewrite ?List.filter_app; cbn; rewrite ?app_nil_r; auto.
Qed.

Lemma unset_secret_is_not_warned_about_witness :
  BackendConfig.warnings
    (snd (BackendConfig.init_settings
            (Ok (BackendConfig.mkSettings "" "production" "" ""))
            (BackendConfig.mkProcess None [])))
  = ["GEMINI_API_KEY is not set. Blog generation will fail.";
     "APP_ENV=production but MONGODB_URI is not set. Database features disabled."]
  /\ List.filter (String.eqb BackendConfig.jwt_warning)
       (BackendConfig.warnings
          (snd (BackendConfig.init_settings
                  (Ok (BackendConfig.mkSettings "" "production" "" ""))
                  (BackendConfig.mkProcess None []))))
     = [].
Proof.
  split; [vm_compute; reflexivity |].
  exact (proj2 (proj2 (unset_secret_is_not_warned_about
                         (Ok (BackendConfig.mkSettings "" "production" "" ""))
                         _ (BackendConfig.mkProcess None []) eq_refl eq_refl))).
Defined.

(** ** What [login] and [register] write *)

Lemma authenticate_user_frame env email password w r w2 :
  authenticate_user env email password w = (r, w2) ->
  store w2 = store w /\ logs w2 = logs w /\ next_oid w2 = next_oid w.
Proof.
  unfold authenticate_user, users_find_one, get_users_collection, get_mongo_db,
    get_mongo_client, driver_call.
  intros H. ainv; wsimpl; auto.
Qed.

Lemma create_access_token_frame env uid email delta w r w2 :
  create_access_token env uid email delta w = (r, w2) -> w2 = w.
Proof.
  unfold create_access_token. intros H. ainv; reflexivity.
Qed.

(** X22.  [login] writes nothing but its audit entry: whatever it
    answers, [users] and [blogs] are what they were; when it returns a
    token, exactly one entry with the action [login] has been appended to
    [history], and when it raises, none. *)
Theorem login_writes_only_the_audit_entry env creds w r w' :
  login env creds w = (r, w') ->
  users w' = users w /\ blogs w' = blogs w
  /\ match r with
     | Ok _ =>
         exists id ts,
           history w' = (history w ++ [mkHistoryDoc id "login" [] ts])%list
     | Raise _ => history w' = history w
     end.
Proof.
  unfold login. intros H. ainv.
  all: repeat match goal with
       | G : authenticate_user _ _ _ _ = _ |- _ =>
           apply authenticate_user_frame in G; destruct G as (? & _ & _)
       | G : create_access_token _ _ _ _ _ = _ |- _ =>
           apply create_access_token_frame in G; subst
       | G : log_user_action _ _ _ _ _ = (Ok _, _) |- _ =>
           apply log_user_action_Ok_inv in G;
           destruct G as (_ & ? & ? & ? & _)
       | G : log_user_action _ _ _ _ _ = (Raise _, _) |- _ =>
           apply log_user_action_Raise_inv in G;
           destruct G as (? & _ & _ & _)
       end.
  all: store_eqs; wsimpl.
  all: repeat split; try congruence.
  all: eexists; eexists; etransitivity; [eassumption |]; f_equal; assumption.
Qed.

Lemma login_writes_only_the_audit_entry_witness :
  users (snd (login Demo.demo_env (mkUserLogin "alice@example.com" "pw1")
                (snd (register Demo.demo_env Demo.alice Demo.w0))))
  = users (snd (register Demo.demo_env Demo.alice Demo.w0)).
Proof.
  assert (H : exists r w',
             login Demo.demo_env (mkUserLogin "alice@example.com" "pw1")
               (snd (register Demo.demo_env Demo.alice Demo.w0)) = (r, w'))
    by (eexists; eexists; vm_compute; reflexivity).
  destruct H as (r & w' & H). rewrite H.
  exact (proj1 (login_writes_only_the_audit_entry _ _ _ _ _ H)).
Defined.

(** X23.  A successful [register] appends one user document, and that
    document holds the password exactly as it was submitted, under
    [password_hash]; its [_id] is the id of the response and its e-mail
    the submitted one.  Its [created_at] is the one of the response cut to
    the millisecond, and its [updated_at] a reading of the clock that is
    not earlier, cut likewise. *)
Theorem register_stores_the_password_verbatim env user_data w r w1 :
  register env user_data w = (Ok r, w1) ->
  exists d,
    users w1 = (users w ++ [d])%list
    /\ d !! "password_hash" = Some (VStr (uc_password user_data))
    /\ d !! "_id" = Some (VObjectId (ur_id r))
    /\ d !! "email" = Some (VStr (uc_email user_data))
    /\ ur_email r = uc_email user_data
    /\ ur_name r = uc_name user_data
    /\ d !! "created_at" = Some (VDatetime (bson_millis (ur_created_at r)))
    /\ (exists updated,
          d !! "updated_at" = Some (VDatetime (bson_millis updated))
          /\ ur_created_at r <= updated)
    /\ dom d = ({["_id"; "email"; "password_hash"; "name"; "created_at";
                  "updated_at"]} : gset string).
Proof.
  intros H.
  destruct (register_Ok_inv _ _ _ _ _ H) as (-> & _ & Hu & _).
  eexists. split; [exact Hu |]. cbn [ur_id ur_email ur_name ur_created_at].
  repeat split; try (by simplify_map_eq).
  eexists. split; [by simplify_map_eq | lia].
Qed.

Lemma register_stores_the_password_verbatim_witness :
  exists d,
    users (snd (register Demo.demo_env Demo.alice Demo.w0)) = [d]
    /\ d !! "password_hash" = Some (VStr "pw1").
Proof.
  assert (H : exists r, register Demo.demo_env Demo.alice Demo.w0
                        = (Ok r, snd (register Demo.demo_env Demo.alice Demo.w0)))
    by (eexists; vm_compute; reflexivity).
  destruct H as (r & H).
  destruct (register_stores_the_password_verbatim _ _ _ _ _ H)
    as (d & U & P & _).
  exists d. split; [exact U | exact P].
Defined.

